(** * cdk-destroy-with-running-ecs: a shallow embedding of main.go

    The tool empties an ECS cluster (services, then tasks) found in a
    CloudFormation stack and then shells out to [cdk destroy].  The source
    holds two revisions of the program:

    - the revision with the flags [--cdk-app-dir] / [--cdk-app-file]
      (main.go lines 1-252), embedded in [Module AppFile];
    - the revision with the flags [--cdk-app-root] / [--cdk-app-path]
      (main.go lines 254-470), embedded in [Module AppPath].

    [arnToName], [waitForServiceStable] and [deleteEcsServices] are the same
    in both revisions and are embedded once.

    Calls that leave the process (AWS SDK, logger, child process) are the
    nodes of a program tree [Prog]; the environment answers them through an
    oracle that sees the whole history of the run. *)

From Stdlib Require Import String Ascii List ZArith Lia Bool Sorted.
Import ListNotations.
Open Scope list_scope.
Open Scope string_scope.

(* ================================================================== *)
(** ** Go values used by the program *)
(* ================================================================== *)

(** Go's [error] interface value, kept as its message; a nil error is
    [None] in [option error]. *)
Definition error : Type := string.

(** A call returning [(out, err)]: the SDK returns either an output or a
    non-nil error. *)
Inductive Result (A : Type) : Type :=
| Ok (out : A)
| Err (err : error).
Arguments Ok {A} out.
Arguments Err {A} err.

(** [aws.ToString]: the string behind a pointer, the empty string for nil. *)
Definition aws_ToString (p : option string) : string :=
  match p with
  | Some s => s
  | None => ""
  end.

(** Does the byte [c] occur in [s]? *)
Fixpoint containsByte (c : ascii) (s : string) : bool :=
  match s with
  | EmptyString => false
  | String d rest => Ascii.eqb d c || containsByte c rest
  end.

(** [strings.Split(s, sep)] for a separator of one byte, the only way the
    program calls it: the pieces of [s] between the occurrences of [sep],
    in order; a string without [sep] (the empty string too) gives the
    one-element slice holding [s]. *)
Fixpoint strings_Split (s : string) (sep : ascii) : list string :=
  match s with
  | EmptyString => [EmptyString]
  | String c rest =>
      if Ascii.eqb c sep then EmptyString :: strings_Split rest sep
      else match strings_Split rest sep with
           | piece :: pieces => String c piece :: pieces
           | [] => [String c EmptyString]
           end
  end.

(** [strings.Join(elems, sep)]. *)
Fixpoint strings_Join (elems : list string) (sep : string) : string :=
  match elems with
  | [] => ""
  | [e] => e
  | e :: rest => e ++ sep ++ strings_Join rest sep
  end.

(** Indexing a slice, [a[i]] with [i] a Go [int]: [None] stands for the
    run-time panic "index out of range". *)
Definition sliceAt (a : list string) (i : Z) : option string :=
  if (i <? 0)%Z then None else nth_error a (Z.to_nat i).

(** [len(a)] as a Go [int]. *)
Definition len {A : Type} (a : list A) : Z := Z.of_nat (List.length a).

(** main.go lines 230-233 and 456-459.
<<
    func arnToName(arn string) string {
        parts := strings.Split(arn, "/")
        return parts[len(parts)-1]
    }
>> *)
Definition arnToName (arn : string) : option string :=
  let parts := strings_Split arn "/" in
  sliceAt parts (len parts - 1).

(* ================================================================== *)
(** ** Requests and responses of the AWS SDK

    Each record keeps the fields the program sets or reads, and the
    pagination token of the list calls.  A Go pointer field is an [option]:
    [aws.String(x)] and [&x] are [Some x], an unset field is [None]. *)
(* ================================================================== *)

(** [aws.Config], opaque to the program. *)
Record aws_Config : Type := { Region : string; Credentials : string }.

(** The functional options handed to [config.LoadDefaultConfig]. *)
Inductive LoadOption : Type :=
| WithRegion (region : string)
| WithSharedConfigProfile (profile : string).

Module StackResourceSummary.
Record t : Type :=
  { ResourceType : option string; PhysicalResourceId : option string }.
End StackResourceSummary.

Module ListStackResourcesInput.
Record t : Type := { StackName : option string; NextToken : option string }.
End ListStackResourcesInput.

Module ListStackResourcesOutput.
Record t : Type :=
  { StackResourceSummaries : list StackResourceSummary.t;
    NextToken : option string }.
End ListStackResourcesOutput.

Module ListServicesInput.
Record t : Type := { Cluster : option string; NextToken : option string }.
End ListServicesInput.

Module ListServicesOutput.
Record t : Type := { ServiceArns : list string; NextToken : option string }.
End ListServicesOutput.

Module UpdateServiceInput.
Record t : Type :=
  { Cluster : option string; Service : option string;
    DesiredCount : option Z }.
End UpdateServiceInput.

Module DescribeServicesInput.
Record t : Type := { Cluster : option string; Services : list string }.
End DescribeServicesInput.

Module DeleteServiceInput.
Record t : Type :=
  { Cluster : option string; Service : option string; Force : option bool }.
End DeleteServiceInput.

(** [ecstypes.DesiredStatus]. *)
Inductive DesiredStatus : Type :=
| DesiredStatusRunning
| DesiredStatusPending
| DesiredStatusStopped.

Module ListTasksInput.
Record t : Type :=
  { Cluster : option string; DesiredStatus : option DesiredStatus;
    NextToken : option string }.
End ListTasksInput.

Module ListTasksOutput.
Record t : Type := { TaskArns : list string; NextToken : option string }.
End ListTasksOutput.

Module StopTaskInput.
Record t : Type :=
  { Cluster : option string; Task : option string; Reason : option string }.
End StopTaskInput.

(** [time.Duration], in nanoseconds. *)
Definition time_Minute : Z := 60 * 1000000000.

(** The standard streams a child process can be wired to. *)
Inductive File : Type := os_Stdout | os_Stderr.

(** [exec.Cmd]: the command name and the arguments given to [exec.Command],
    the working directory ([""]: the directory of the calling process) and the
    output streams (unset: discarded). *)
Module Cmd.
Record t : Type :=
  { Name : string; Args : list string; Dir : string;
    Stdout : option File; Stderr : option File }.
End Cmd.

(** [exec.Command(name, arg...)]. *)
Definition exec_Command (name : string) (arg : list string) : Cmd.t :=
  {| Cmd.Name := name; Cmd.Args := arg; Cmd.Dir := "";
     Cmd.Stdout := None; Cmd.Stderr := None |}.

(* ================================================================== *)
(** ** Programs: trees of calls to the outside *)
(* ================================================================== *)

(** What the program asks of its environment. *)
Inductive Call : Type :=
| LoadDefaultConfig (opts : list LoadOption)
| ListStackResources (cfg : aws_Config) (input : ListStackResourcesInput.t)
| ListServices (cfg : aws_Config) (input : ListServicesInput.t)
| UpdateService (cfg : aws_Config) (input : UpdateServiceInput.t)
| ServicesStableWait (cfg : aws_Config) (input : DescribeServicesInput.t)
                     (maxWait : Z)
| DeleteService (cfg : aws_Config) (input : DeleteServiceInput.t)
| ListTasks (cfg : aws_Config) (input : ListTasksInput.t)
| StopTask (cfg : aws_Config) (input : StopTaskInput.t)
| LogOutput (line : string)
| CmdRun (cmd : Cmd.t).

(** What the environment answers.  The outputs of update, delete and stop
    are dropped by the program ([_, err := ...]); only the error is kept. *)
Definition Resp (c : Call) : Type :=
  match c with
  | LoadDefaultConfig _ => Result aws_Config
  | ListStackResources _ _ => Result ListStackResourcesOutput.t
  | ListServices _ _ => Result ListServicesOutput.t
  | ListTasks _ _ => Result ListTasksOutput.t
  | UpdateService _ _ | ServicesStableWait _ _ _ | DeleteService _ _
  | StopTask _ _ | CmdRun _ => option error
  | LogOutput _ => unit
  end.

(** A program returns, panics, leaves through [os.Exit], or makes a call and
    goes on with the answer. *)
Inductive Prog (A : Type) : Type :=
| Ret (a : A)
| Panic (msg : string)
| Exit (code : Z)
| Vis (c : Call) (k : Resp c -> Prog A).
Arguments Ret {A} a.
Arguments Panic {A} msg.
Arguments Exit {A} code.
Arguments Vis {A} c k.

Fixpoint bind {A B : Type} (p : Prog A) (f : A -> Prog B) : Prog B :=
  match p with
  | Ret a => f a
  | Panic msg => Panic msg
  | Exit code => Exit code
  | Vis c k => Vis c (fun r => bind (k r) f)
  end.

Declare Scope prog_scope.
Delimit Scope prog_scope with prog.
Bind Scope prog_scope with Prog.
Notation "x <- p ;; q" := (bind p (fun x => q))
  (at level 61, p at next level, right associativity) : prog_scope.
Notation "p ;; q" := (bind p (fun _ => q))
  (at level 61, right associativity) : prog_scope.
Open Scope prog_scope.

Definition call (c : Call) : Prog (Resp c) := Vis c (fun r => Ret r).

(** [log.Printf] and [log.Println]: one line on the standard logger. *)
Definition log_Printf (line : string) : Prog unit := call (LogOutput line).

(** [log.Fatal] and [log.Fatalf]: the line, then [os.Exit(1)]. *)
Definition log_Fatal {A : Type} (line : string) : Prog A :=
  call (LogOutput line) ;; Exit 1.

(** A value that must be present: a nil dereference or a failed bounds check
    is a run-time panic. *)
Definition must {A : Type} (o : option A) (msg : string) : Prog A :=
  match o with
  | Some a => Ret a
  | None => Panic msg
  end.

(** [for _, x := range xs { body }], where the body neither breaks nor
    returns from the enclosing function ([continue] ends the body). *)
Fixpoint forRange {A : Type} (xs : list A) (body : A -> Prog unit)
  : Prog unit :=
  match xs with
  | [] => Ret tt
  | x :: rest => body x ;; forRange rest body
  end.

(** *** Running a program

    An event is a call with its answer.  The environment answers a call
    knowing every event of the run so far, so its answers may depend on what
    the program did before (a deleted service is gone, a stopped task no
    longer listed). *)
Definition Event : Type := { c : Call & Resp c }.
Definition Trace : Type := list Event.
Definition Env : Type := Trace -> forall c : Call, Resp c.

Definition event (c : Call) (r : Resp c) : Event := existT Resp c r.

Inductive Outcome (A : Type) : Type :=
| Returned (a : A)
| Panicked (msg : string)
| Exited (code : Z).
Arguments Returned {A} a.
Arguments Panicked {A} msg.
Arguments Exited {A} code.

(** [run env p past]: how [p] ends after the events [past], and the events
    it adds, oldest first. *)
Fixpoint run {A : Type} (env : Env) (p : Prog A) (past : Trace)
  : Outcome A * Trace :=
  match p with
  | Ret a => (Returned a, [])
  | Panic msg => (Panicked msg, [])
  | Exit code => (Exited code, [])
  | Vis c k =>
      let r := env past c in
      let (o, t) := run env (k r) (past ++ [event c r])%list in
      (o, event c r :: t)
  end.

(** The calls of a trace, without the answers. *)
Definition calls (t : Trace) : list Call := map (@projT1 Call Resp) t.

(** The exit status of the process: 0 after [main] returns, the argument of
    [os.Exit], 2 after a panic. *)
Definition exitStatus {A : Type} (o : Outcome A) : Z :=
  match o with
  | Returned _ => 0
  | Panicked _ => 2
  | Exited code => code
  end.

Notation "' pat <- p ;; q" :=
  (bind p (fun x => match x with pat => q end))
  (at level 61, pat pattern, p at next level, right associativity)
  : prog_scope.

(** Assignments to the fields of an [exec.Cmd]. *)
Definition setDir (cmd : Cmd.t) (dir : string) : Cmd.t :=
  {| Cmd.Name := Cmd.Name cmd; Cmd.Args := Cmd.Args cmd; Cmd.Dir := dir;
     Cmd.Stdout := Cmd.Stdout cmd; Cmd.Stderr := Cmd.Stderr cmd |}.

Definition setStdout (cmd : Cmd.t) (f : File) : Cmd.t :=
  {| Cmd.Name := Cmd.Name cmd; Cmd.Args := Cmd.Args cmd;
     Cmd.Dir := Cmd.Dir cmd;
     Cmd.Stdout := Some f; Cmd.Stderr := Cmd.Stderr cmd |}.

Definition setStderr (cmd : Cmd.t) (f : File) : Cmd.t :=
  {| Cmd.Name := Cmd.Name cmd; Cmd.Args := Cmd.Args cmd;
     Cmd.Dir := Cmd.Dir cmd;
     Cmd.Stdout := Cmd.Stdout cmd; Cmd.Stderr := Some f |}.

(** The panic of [parts[len(parts)-1]] and of [*p] on a nil [p]. *)
Definition indexOutOfRange : string := "runtime error: index out of range".
Definition nilDereference : string :=
  "runtime error: invalid memory address or nil pointer dereference".

(** [if err != nil { log.Printf(line(err)) }]. *)
Definition logIfErr (err : option error) (line : error -> string)
  : Prog unit :=
  match err with
  | Some e => log_Printf (line e)
  | None => Ret tt
  end.

(** [if err != nil { log.Fatalf(line(err)) }]. *)
Definition fatalIfErr (err : option error) (line : error -> string)
  : Prog unit :=
  match err with
  | Some e => log_Fatal (line e)
  | None => Ret tt
  end.

(* ================================================================== *)
(** ** The functions shared by both revisions *)
(* ================================================================== *)

(** main.go lines 238-252 and 462-470: the SDK's waiter for
    [DescribeServices] on the one service, for at most ten minutes. *)
Definition waitForServiceStable (cfg : aws_Config)
    (clusterName serviceName : string) : Prog (option error) :=
  let input :=
    {| DescribeServicesInput.Cluster := Some clusterName;
       DescribeServicesInput.Services := [serviceName] |} in
  let maxWait := (10 * time_Minute)%Z in
  call (ServicesStableWait cfg input maxWait).

(** The body of the loop of [deleteEcsServices], main.go lines 127-157 and
    366-393. *)
Definition deleteEcsServices_body (cfg : aws_Config) (clusterName : string)
    (svcArn : string) : Prog unit :=
  svcName <- must (arnToName svcArn) indexOutOfRange ;;
  log_Printf ("[Service: " ++ svcName ++ "] Setting desired count to 0...") ;;
  err <- call (UpdateService cfg
                 {| UpdateServiceInput.Cluster := Some clusterName;
                    UpdateServiceInput.Service := Some svcName;
                    UpdateServiceInput.DesiredCount := Some 0%Z |}) ;;
  match err with
  | Some e =>
      (* continue *)
      log_Printf ("Failed to update service(" ++ svcName
                  ++ ") desiredCount=0: " ++ e)
  | None =>
      err <- waitForServiceStable cfg clusterName svcName ;;
      logIfErr err (fun e => "waitForServiceStable failed for service("
                             ++ svcName ++ "): " ++ e) ;;
      log_Printf ("[Service: " ++ svcName ++ "] Deleting...") ;;
      err <- call (DeleteService cfg
                     {| DeleteServiceInput.Cluster := Some clusterName;
                        DeleteServiceInput.Service := Some svcName;
                        DeleteServiceInput.Force := Some true |}) ;;
      logIfErr err (fun e => "Failed to delete service(" ++ svcName
                             ++ "): " ++ e)
  end.

(** main.go lines 111-160 and 351-395. *)
Definition deleteEcsServices (cfg : aws_Config) (clusterName : string)
  : Prog (option error) :=
  res <- call (ListServices cfg
                 {| ListServicesInput.Cluster := Some clusterName;
                    ListServicesInput.NextToken := None |}) ;;
  match res with
  | Err err => Ret (Some ("ListServices error: " ++ err))
  | Ok listOut =>
      if (len (ListServicesOutput.ServiceArns listOut) =? 0)%Z then
        log_Printf ("No ECS services found in cluster: " ++ clusterName) ;;
        Ret None
      else
        forRange (ListServicesOutput.ServiceArns listOut)
                 (deleteEcsServices_body cfg clusterName) ;;
        Ret None
  end.

(** The body of the loop of [stopRemainingTasks], main.go lines 181-192 and
    413-424. *)
Definition stopRemainingTasks_body (cfg : aws_Config) (clusterName : string)
    (taskArn : string) : Prog unit :=
  taskName <- must (arnToName taskArn) indexOutOfRange ;;
  log_Printf ("[Task: " ++ taskName ++ "] Stopping...") ;;
  err <- call (StopTask cfg
                 {| StopTaskInput.Cluster := Some clusterName;
                    StopTaskInput.Task := Some taskArn;
                    StopTaskInput.Reason := Some "Cleanup before destroy" |}) ;;
  logIfErr err (fun e => "Failed to stop task(" ++ taskName ++ "): " ++ e).

(** Is this summary an ECS cluster?
    [r.ResourceType != nil && *r.ResourceType == "AWS::ECS::Cluster"]. *)
Definition isEcsCluster (r : StackResourceSummary.t) : bool :=
  match StackResourceSummary.ResourceType r with
  | Some ty => ty =? "AWS::ECS::Cluster"
  | None => false
  end.

(* ================================================================== *)
(** ** The revision with [--cdk-app-dir] and [--cdk-app-file]
       (main.go lines 1-252) *)
(* ================================================================== *)

Module AppFile.

(** The flags after [flag.Parse] (lines 22-28). *)
Record Flags : Type :=
  { stackName : string; profile : string; region : string;
    cdkAppDir : string; cdkAppFile : string }.

(** Lines 77-85. *)
Definition loadAWSConfig (profile region : string)
  : Prog (Result aws_Config) :=
  let opts := [WithRegion region] in
  let opts := if profile =? "" then opts
              else (opts ++ [WithSharedConfigProfile profile])%list in
  call (LoadDefaultConfig opts).

(** The loop of lines 100-105: the first cluster summary ends the
    function; the identifier is read with [aws.ToString]. *)
Fixpoint getEcsClusterNameFromStack_loop
    (summaries : list StackResourceSummary.t) : Prog (string * option error) :=
  match summaries with
  | [] => Ret ("", None)
  | r :: rest =>
      if isEcsCluster r then
        Ret (aws_ToString (StackResourceSummary.PhysicalResourceId r), None)
      else getEcsClusterNameFromStack_loop rest
  end.

(** Lines 90-106. *)
Definition getEcsClusterNameFromStack (cfg : aws_Config)
    (stackName : string) : Prog (string * option error) :=
  res <- call (ListStackResources cfg
                 {| ListStackResourcesInput.StackName := Some stackName;
                    ListStackResourcesInput.NextToken := None |}) ;;
  match res with
  | Err err => Ret ("", Some err)
  | Ok res =>
      getEcsClusterNameFromStack_loop
        (ListStackResourcesOutput.StackResourceSummaries res)
  end.

(** Lines 165-195. *)
Definition stopRemainingTasks (cfg : aws_Config) (clusterName : string)
  : Prog (option error) :=
  res <- call (ListTasks cfg
                 {| ListTasksInput.Cluster := Some clusterName;
                    ListTasksInput.DesiredStatus := Some DesiredStatusRunning;
                    ListTasksInput.NextToken := None |}) ;;
  match res with
  | Err err => Ret (Some ("ListTasks error: " ++ err))
  | Ok listOut =>
      if (len (ListTasksOutput.TaskArns listOut) =? 0)%Z then
        log_Printf ("No running tasks found in cluster: " ++ clusterName) ;;
        Ret None
      else
        forRange (ListTasksOutput.TaskArns listOut)
                 (stopRemainingTasks_body cfg clusterName) ;;
        Ret None
  end.

Section Filepath.

(** [filepath.Join] of the Go library, which depends on the operating
    system. *)
Variable filepath_Join : list string -> string.

(** Lines 200-225.  [cmd.Dir] is not assigned: the child runs in the
    directory of the tool. *)
Definition runCdkDestroy
    (stackName profile region cdkAppDir cdkAppFile : string)
  : Prog (option error) :=
  let args := ["destroy"; "--all"; "--force"] in
  let args := if profile =? "" then args
              else (args ++ ["--profile"; profile])%list in
  let appPath := filepath_Join [cdkAppDir; cdkAppFile] in
  let appArg := "npx ts-node " ++ appPath in
  let args := (args ++ ["--app"; appArg])%list in
  log_Printf ("Executing: cdk " ++ strings_Join args " ") ;;
  let cmd := exec_Command "cdk" args in
  let cmd := setStdout cmd os_Stdout in
  let cmd := setStderr cmd os_Stderr in
  call (CmdRun cmd).

(** Lines 30-72. *)
Definition main (flags : Flags) : Prog unit :=
  (if stackName flags =? "" then
     log_Fatal "Error: --stack を指定してください。"
   else Ret tt) ;;
  cfg <- loadAWSConfig (profile flags) (region flags) ;;
  match cfg with
  | Err err => log_Fatal ("failed to load config: " ++ err)
  | Ok cfg =>
      '(clusterName, err) <-
         getEcsClusterNameFromStack cfg (stackName flags) ;;
      fatalIfErr err (fun e => "failed to get ECS cluster name: " ++ e) ;;
      (if clusterName =? "" then
         log_Printf ("Stack " ++ stackName flags
           ++ " 内に ECS::Cluster リソースが見つかりませんでした。")
       else
         log_Printf ("Detected ECS Cluster: " ++ clusterName) ;;
         err <- deleteEcsServices cfg clusterName ;;
         fatalIfErr err (fun e => "failed to delete ECS services: " ++ e) ;;
         err <- stopRemainingTasks cfg clusterName ;;
         fatalIfErr err (fun e => "failed to stop remaining tasks: " ++ e)) ;;
      err <- runCdkDestroy (stackName flags) (profile flags)
               (region flags) (cdkAppDir flags) (cdkAppFile flags) ;;
      fatalIfErr err (fun e => "failed to run cdk destroy: " ++ e) ;;
      log_Printf "All done."
  end.

End Filepath.

End AppFile.

(* ================================================================== *)
(** ** The revision with [--cdk-app-root] and [--cdk-app-path]
       (main.go lines 254-470) *)
(* ================================================================== *)

Module AppPath.

(** The flags after [flag.Parse] (lines 273-278). *)
Record Flags : Type :=
  { stackName : string; profile : string;
    cdkAppPath : string; cdkAppRoot : string }.

(** Lines 324-330. *)
Definition loadAWSConfig (profile : string) : Prog (Result aws_Config) :=
  let opts := [] in
  let opts := if profile =? "" then opts
              else (opts ++ [WithSharedConfigProfile profile])%list in
  call (LoadDefaultConfig opts).

(** The loop of lines 342-347: the first cluster summary ends the
    function; the identifier is read with [*r.PhysicalResourceId], which
    panics on nil. *)
Fixpoint getEcsClusterNameFromStack_loop
    (summaries : list StackResourceSummary.t) : Prog (string * option error) :=
  match summaries with
  | [] => Ret ("", None)
  | r :: rest =>
      if isEcsCluster r then
        id <- must (StackResourceSummary.PhysicalResourceId r)
                   nilDereference ;;
        Ret (id, None)
      else getEcsClusterNameFromStack_loop rest
  end.

(** Lines 333-348. *)
Definition getEcsClusterNameFromStack (cfg : aws_Config)
    (stackName : string) : Prog (string * option error) :=
  res <- call (ListStackResources cfg
                 {| ListStackResourcesInput.StackName := Some stackName;
                    ListStackResourcesInput.NextToken := None |}) ;;
  match res with
  | Err err => Ret ("", Some err)
  | Ok res =>
      getEcsClusterNameFromStack_loop
        (ListStackResourcesOutput.StackResourceSummaries res)
  end.

(** Lines 398-426. *)
Definition stopRemainingTasks (cfg : aws_Config) (clusterName : string)
  : Prog (option error) :=
  res <- call (ListTasks cfg
                 {| ListTasksInput.Cluster := Some clusterName;
                    ListTasksInput.DesiredStatus := Some DesiredStatusRunning;
                    ListTasksInput.NextToken := None |}) ;;
  match res with
  | Err err => Ret (Some ("ListTasks error: " ++ err))
  | Ok listOut =>
      if (len (ListTasksOutput.TaskArns listOut) =? 0)%Z then
        log_Printf ("No running tasks in cluster: " ++ clusterName) ;;
        Ret None
      else
        forRange (ListTasksOutput.TaskArns listOut)
                 (stopRemainingTasks_body cfg clusterName) ;;
        Ret None
  end.

(** Lines 429-453. *)
Definition runCdkDestroy (profile cdkAppRoot cdkAppPath : string)
  : Prog (option error) :=
  let args := ["destroy"; "--all"; "--force"] in
  let args := if profile =? "" then args
              else (args ++ ["--profile"; profile])%list in
  let appArg := "npx ts-node " ++ cdkAppPath in
  let args := (args ++ ["--app"; appArg])%list in
  log_Printf ("Executing: cdk " ++ strings_Join args " ") ;;
  let cmd := exec_Command "cdk" args in
  let cmd := setDir cmd cdkAppRoot in
  let cmd := setStdout cmd os_Stdout in
  let cmd := setStderr cmd os_Stderr in
  call (CmdRun cmd).

(** Lines 280-321. *)
Definition main (flags : Flags) : Prog unit :=
  (if stackName flags =? "" then
     log_Fatal "Error: --stack を指定してください。"
   else Ret tt) ;;
  (if cdkAppPath flags =? "" then
     log_Fatal "Error: --cdk-app-path を指定してください。"
   else Ret tt) ;;
  cfg <- loadAWSConfig (profile flags) ;;
  match cfg with
  | Err err => log_Fatal ("failed to load AWS config: " ++ err)
  | Ok cfg =>
      '(clusterName, err) <-
         getEcsClusterNameFromStack cfg (stackName flags) ;;
      fatalIfErr err (fun e => "Failed to get ECS cluster name: " ++ e) ;;
      (if clusterName =? "" then
         log_Printf ("No ECS::Cluster in stack: " ++ stackName flags)
       else
         err <- deleteEcsServices cfg clusterName ;;
         fatalIfErr err (fun e => "Failed to delete ECS services: " ++ e) ;;
         err <- stopRemainingTasks cfg clusterName ;;
         fatalIfErr err (fun e => "Failed to stop tasks: " ++ e)) ;;
      err <- runCdkDestroy (profile flags) (cdkAppRoot flags)
               (cdkAppPath flags) ;;
      fatalIfErr err (fun e => "Failed to run cdk destroy: " ++ e) ;;
      log_Printf "All done."
  end.

End AppPath.

(* ================================================================== *)
(** ** Vocabulary of the properties *)
(* ================================================================== *)

Definition isLog (c : Call) : bool :=
  match c with
  | LogOutput _ => true
  | _ => false
  end.

(** A call to the ECS control plane. *)
Definition isEcsCall (c : Call) : bool :=
  match c with
  | ListServices _ _ | UpdateService _ _ | ServicesStableWait _ _ _
  | DeleteService _ _ | ListTasks _ _ | StopTask _ _ => true
  | _ => false
  end.

(** A call that lists a page of resources. *)
Definition isListCall (c : Call) : bool :=
  match c with
  | ListStackResources _ _ | ListServices _ _ | ListTasks _ _ => true
  | _ => false
  end.

(** The events of a trace that are not log lines. *)
Definition apiEvents (t : Trace) : Trace :=
  filter (fun e => negb (isLog (projT1 e))) t.

(** The calls of a trace that are not log lines. *)
Definition apiCalls (t : Trace) : list Call := calls (apiEvents t).

(** The stop requests of a trace, in order. *)
Definition stopRequests (t : Trace) : list StopTaskInput.t :=
  flat_map (fun c => match c with
                     | StopTask _ input => [input]
                     | _ => []
                     end) (calls t).

(** The program never makes a call that satisfies [P], whatever the
    answers. *)
Fixpoint never {A : Type} (P : Call -> bool) (p : Prog A) : Prop :=
  match p with
  | Vis c k => P c = false /\ forall r, never P (k r)
  | _ => True
  end.

(** The requests the drainer builds for the service [svcName]. *)
Definition updateToZero (clusterName svcName : string) : UpdateServiceInput.t :=
  {| UpdateServiceInput.Cluster := Some clusterName;
     UpdateServiceInput.Service := Some svcName;
     UpdateServiceInput.DesiredCount := Some 0%Z |}.

Definition describeOne (clusterName svcName : string)
  : DescribeServicesInput.t :=
  {| DescribeServicesInput.Cluster := Some clusterName;
     DescribeServicesInput.Services := [svcName] |}.

Definition forceDelete (clusterName svcName : string) : DeleteServiceInput.t :=
  {| DeleteServiceInput.Cluster := Some clusterName;
     DeleteServiceInput.Service := Some svcName;
     DeleteServiceInput.Force := Some true |}.

Definition listServicesOf (clusterName : string) : ListServicesInput.t :=
  {| ListServicesInput.Cluster := Some clusterName;
     ListServicesInput.NextToken := None |}.

Definition listRunningTasksOf (clusterName : string) : ListTasksInput.t :=
  {| ListTasksInput.Cluster := Some clusterName;
     ListTasksInput.DesiredStatus := Some DesiredStatusRunning;
     ListTasksInput.NextToken := None |}.

Definition listResourcesOf (stackName : string) : ListStackResourcesInput.t :=
  {| ListStackResourcesInput.StackName := Some stackName;
     ListStackResourcesInput.NextToken := None |}.

Definition stopForCleanup (clusterName taskArn : string) : StopTaskInput.t :=
  {| StopTaskInput.Cluster := Some clusterName;
     StopTaskInput.Task := Some taskArn;
     StopTaskInput.Reason := Some "Cleanup before destroy" |}.

(** The drainer's contract in the words of the specification: the services
    are taken in list order; a service whose update fails gets nothing more;
    a service whose update succeeds gets its wait and then, whatever the wait
    answered, its forced deletion. *)
Inductive Drained (cfg : aws_Config) (clusterName : string)
  : list string -> Trace -> Prop :=
| Drained_nil : Drained cfg clusterName [] []
| Drained_update_failed (svcArn svcName : string) (e : error)
    (rest : list string) (t : Trace) :
    arnToName svcArn = Some svcName ->
    Drained cfg clusterName rest t ->
    Drained cfg clusterName (svcArn :: rest)
      (event (UpdateService cfg (updateToZero clusterName svcName)) (Some e)
       :: t)
| Drained_update_ok (svcArn svcName : string) (waitErr delErr : option error)
    (rest : list string) (t : Trace) :
    arnToName svcArn = Some svcName ->
    Drained cfg clusterName rest t ->
    Drained cfg clusterName (svcArn :: rest)
      (event (UpdateService cfg (updateToZero clusterName svcName)) None
       :: event (ServicesStableWait cfg (describeOne clusterName svcName)
                   (10 * time_Minute)) waitErr
       :: event (DeleteService cfg (forceDelete clusterName svcName)) delErr
       :: t).

(** The reaper's contract, for a program [stop] and the line [emptyLine]
    it reports an empty cluster with: failure exactly on a failed listing,
    one stop request per listed task, in order and with the fixed reason,
    and for an empty list nothing but the report. *)
Definition ReaperContract
    (stop : aws_Config -> string -> Prog (option error))
    (emptyLine : string -> string) : Prop :=
  forall (env : Env) (past : Trace) (cfg : aws_Config) (clusterName : string),
    let list := ListTasks cfg (listRunningTasksOf clusterName) in
    let result := run env (stop cfg clusterName) past in
    fst result
    = Returned (match env past list with
                | Ok _ => None
                | Err err => Some ("ListTasks error: " ++ err)
                end) /\
    stopRequests (snd result)
    = match env past list with
      | Ok listOut =>
          map (stopForCleanup clusterName) (ListTasksOutput.TaskArns listOut)
      | Err _ => []
      end /\
    (forall listOut,
        env past list = Ok listOut ->
        ListTasksOutput.TaskArns listOut = [] ->
        snd result
        = [event list (Ok listOut);
           event (LogOutput (emptyLine clusterName)) tt]).

(** A list answer with its continuation token erased. *)
Definition withoutResourcesToken (r : Result ListStackResourcesOutput.t)
  : Result ListStackResourcesOutput.t :=
  match r with
  | Ok out =>
      Ok {| ListStackResourcesOutput.StackResourceSummaries :=
              ListStackResourcesOutput.StackResourceSummaries out;
            ListStackResourcesOutput.NextToken := None |}
  | Err err => Err err
  end.

Definition withoutServicesToken (r : Result ListServicesOutput.t)
  : Result ListServicesOutput.t :=
  match r with
  | Ok out =>
      Ok {| ListServicesOutput.ServiceArns := ListServicesOutput.ServiceArns out;
            ListServicesOutput.NextToken := None |}
  | Err err => Err err
  end.

Definition withoutTasksToken (r : Result ListTasksOutput.t)
  : Result ListTasksOutput.t :=
  match r with
  | Ok out =>
      Ok {| ListTasksOutput.TaskArns := ListTasksOutput.TaskArns out;
            ListTasksOutput.NextToken := None |}
  | Err err => Err err
  end.

(** The program [p] reads one page: it starts with the call [list], goes on
    the same way whatever continuation token the answer carries, and makes no
    other list call, so that [list] is the only list call of every run. *)
Definition ReadsOnePage {A : Type} (p : Prog A) (list : Call)
    (withoutToken : Resp list -> Resp list) : Prop :=
  exists k : Resp list -> Prog A,
    p = Vis list k /\
    (forall r, k r = k (withoutToken r)) /\
    (forall r, never isListCall (k r)) /\
    (forall (env : Env) (past : Trace),
        filter isListCall (calls (snd (run env p past))) = [list]).

(** The argument list as the specification writes it:
    [destroy --all --force [--profile P] --app "npx ts-node <entry-path>"]. *)
Definition destroyArgs (profile entryPath : string) : list string :=
  (["destroy"; "--all"; "--force"]
   ++ (if profile =? "" then [] else ["--profile"; profile])
   ++ ["--app"; ("npx ts-node " ++ entryPath)%string])%list.

(* ================================================================== *)
(** ** Environments used in the examples *)
(* ================================================================== *)

Definition someConfig : aws_Config :=
  {| Region := "us-east-1"; Credentials := "default" |}.

(** An environment in which every call succeeds and every list is empty. *)
Definition quietEnv : Env := fun _ c =>
  match c return Resp c with
  | LoadDefaultConfig _ => Ok someConfig
  | ListStackResources _ _ =>
      Ok {| ListStackResourcesOutput.StackResourceSummaries := [];
            ListStackResourcesOutput.NextToken := None |}
  | ListServices _ _ =>
      Ok {| ListServicesOutput.ServiceArns := [];
            ListServicesOutput.NextToken := None |}
  | ListTasks _ _ =>
      Ok {| ListTasksOutput.TaskArns := [];
            ListTasksOutput.NextToken := None |}
  | UpdateService _ _ | ServicesStableWait _ _ _ | DeleteService _ _
  | StopTask _ _ | CmdRun _ => None
  | LogOutput _ => tt
  end.

(** A stack with a bucket and the cluster [cluster-x]. *)
Definition clusterStack : list StackResourceSummary.t :=
  [ {| StackResourceSummary.ResourceType := Some "AWS::S3::Bucket";
       StackResourceSummary.PhysicalResourceId := Some "assets-bucket" |};
    {| StackResourceSummary.ResourceType := Some "AWS::ECS::Cluster";
       StackResourceSummary.PhysicalResourceId := Some "cluster-x" |} ].

(** A stack whose cluster has no physical identifier yet. *)
Definition clusterWithoutId : list StackResourceSummary.t :=
  [ {| StackResourceSummary.ResourceType := Some "AWS::ECS::Cluster";
       StackResourceSummary.PhysicalResourceId := None |} ].

(** An environment with a cluster of two services [A] and [B] and one task:
    updating [B] fails, every wait times out, stopping the task fails, and
    every list answer carries a continuation token. *)
Definition busyEnv (summaries : list StackResourceSummary.t) : Env :=
  fun _ c =>
  match c return Resp c with
  | LoadDefaultConfig _ => Ok someConfig
  | ListStackResources _ _ =>
      Ok {| ListStackResourcesOutput.StackResourceSummaries := summaries;
            ListStackResourcesOutput.NextToken := Some "page-2" |}
  | ListServices _ _ =>
      Ok {| ListServicesOutput.ServiceArns :=
              ["arn:aws:ecs:region:acct:service/cluster-x/A";
               "arn:aws:ecs:region:acct:service/cluster-x/B"];
            ListServicesOutput.NextToken := Some "page-2" |}
  | ListTasks _ _ =>
      Ok {| ListTasksOutput.TaskArns :=
              ["arn:aws:ecs:region:acct:task/cluster-x/0123abcd"];
            ListTasksOutput.NextToken := Some "page-2" |}
  | UpdateService _ input =>
      if aws_ToString (UpdateServiceInput.Service input) =? "B"
      then Some "AccessDeniedException" else None
  | ServicesStableWait _ _ _ => Some "exceeded max wait time"
  | DeleteService _ _ => None
  | StopTask _ _ => Some "InvalidParameterException"
  | CmdRun _ => None
  | LogOutput _ => tt
  end.

(** [filepath.Join] where the separator is '/' and the elements are clean and
    not empty. *)
Definition joinWithSlash (elem : list string) : string :=
  strings_Join elem "/".

(* ================================================================== *)
(** ** Vocabulary of whole runs *)
(* ================================================================== *)

(** What a run of [main] is set up with by its flags: whether the flags
    pass the checks at the start, the options of the configuration load, the
    stack to inspect, the command to run at the end, and whether the
    inspector reads identifiers with [aws.ToString]. *)
Module Plan.
Record t : Type :=
  { accepted : bool; loadOptions : list LoadOption; stack : string;
    command : Cmd.t; nilSafe : bool }.
End Plan.

(** The options [loadAWSConfig] builds in each revision. *)
Definition optionsAppFile (profile region : string) : list LoadOption :=
  if profile =? "" then [WithRegion region]
  else [WithRegion region; WithSharedConfigProfile profile].

Definition optionsAppPath (profile : string) : list LoadOption :=
  if profile =? "" then [] else [WithSharedConfigProfile profile].

(** The command [runCdkDestroy] runs in each revision. *)
Definition commandAppFile (filepath_Join : list string -> string)
    (profile cdkAppDir cdkAppFile : string) : Cmd.t :=
  {| Cmd.Name := "cdk";
     Cmd.Args := destroyArgs profile (filepath_Join [cdkAppDir; cdkAppFile]);
     Cmd.Dir := "";
     Cmd.Stdout := Some os_Stdout; Cmd.Stderr := Some os_Stderr |}.

Definition commandAppPath (profile cdkAppRoot cdkAppPath : string) : Cmd.t :=
  {| Cmd.Name := "cdk";
     Cmd.Args := destroyArgs profile cdkAppPath;
     Cmd.Dir := cdkAppRoot;
     Cmd.Stdout := Some os_Stdout; Cmd.Stderr := Some os_Stderr |}.

Definition planAppFile (filepath_Join : list string -> string)
    (flags : AppFile.Flags) : Plan.t :=
  {| Plan.accepted := negb (AppFile.stackName flags =? "");
     Plan.loadOptions :=
       optionsAppFile (AppFile.profile flags) (AppFile.region flags);
     Plan.stack := AppFile.stackName flags;
     Plan.command :=
       commandAppFile filepath_Join (AppFile.profile flags)
                      (AppFile.cdkAppDir flags) (AppFile.cdkAppFile flags);
     Plan.nilSafe := true |}.

Definition planAppPath (flags : AppPath.Flags) : Plan.t :=
  {| Plan.accepted := negb (AppPath.stackName flags =? "")
                      && negb (AppPath.cdkAppPath flags =? "");
     Plan.loadOptions := optionsAppPath (AppPath.profile flags);
     Plan.stack := AppPath.stackName flags;
     Plan.command :=
       commandAppPath (AppPath.profile flags) (AppPath.cdkAppRoot flags)
                      (AppPath.cdkAppPath flags);
     Plan.nilSafe := false |}.

(** A property of every run of [main], in both revisions. *)
Definition EveryRun (Q : Plan.t -> Outcome unit -> Trace -> Prop) : Prop :=
  (forall (env : Env) (past : Trace) (filepath_Join : list string -> string)
          (flags : AppFile.Flags),
      Q (planAppFile filepath_Join flags)
        (fst (run env (AppFile.main filepath_Join flags) past))
        (snd (run env (AppFile.main filepath_Join flags) past))) /\
  (forall (env : Env) (past : Trace) (flags : AppPath.Flags),
      Q (planAppPath flags)
        (fst (run env (AppPath.main flags) past))
        (snd (run env (AppPath.main flags) past))).

(** *** What a trace shows *)



(** The commands run, in order. *)
Definition commandRun (ev : Event) : list Cmd.t :=
  match projT1 ev with
  | CmdRun cmd => [cmd]
  | _ => []
  end.

Definition commandsRun (t : Trace) : list Cmd.t := flat_map commandRun t.

(** The errors answered to the configuration load and to the list calls. *)
Definition listFailure (ev : Event) : list error :=
  match ev with
  | existT _ c r =>
      match c return Resp c -> list error with
      | LoadDefaultConfig _ | ListStackResources _ _ | ListServices _ _
      | ListTasks _ _ =>
          fun r => match r with
                   | Err e => [e]
                   | Ok _ => []
                   end
      | _ => fun _ => []
      end r
  end.

Definition listFailures (t : Trace) : list error := flat_map listFailure t.

(** The configurations the load answered. *)
Definition loadedConfig (ev : Event) : list aws_Config :=
  match ev with
  | existT _ c r =>
      match c return Resp c -> list aws_Config with
      | LoadDefaultConfig _ =>
          fun r => match r with
                   | Ok cfg => [cfg]
                   | Err _ => []
                   end
      | _ => fun _ => []
      end r
  end.

Definition loadedConfigs (t : Trace) : list aws_Config :=
  flat_map loadedConfig t.

(** The configurations the AWS requests were made with. *)
Definition usedConfig (ev : Event) : list aws_Config :=
  match projT1 ev with
  | ListStackResources cfg _ | ListServices cfg _ | UpdateService cfg _
  | ServicesStableWait cfg _ _ | DeleteService cfg _ | ListTasks cfg _
  | StopTask cfg _ => [cfg]
  | _ => []
  end.

Definition usedConfigs (t : Trace) : list aws_Config := flat_map usedConfig t.

(** The stack resources the inspector was answered with. *)
Definition listedResource (ev : Event) : list ListStackResourcesOutput.t :=
  match ev with
  | existT _ c r =>
      match c return Resp c -> list ListStackResourcesOutput.t with
      | ListStackResources _ _ =>
          fun r => match r with
                   | Ok res => [res]
                   | Err _ => []
                   end
      | _ => fun _ => []
      end r
  end.

Definition listedResources (t : Trace) : list ListStackResourcesOutput.t :=
  flat_map listedResource t.

(** The clusters the ECS requests name. *)
Definition ecsCluster (ev : Event) : list (option string) :=
  match projT1 ev with
  | ListServices _ input => [ListServicesInput.Cluster input]
  | UpdateService _ input => [UpdateServiceInput.Cluster input]
  | ServicesStableWait _ input _ => [DescribeServicesInput.Cluster input]
  | DeleteService _ input => [DeleteServiceInput.Cluster input]
  | ListTasks _ input => [ListTasksInput.Cluster input]
  | StopTask _ input => [StopTaskInput.Cluster input]
  | _ => []
  end.

Definition ecsClusters (t : Trace) : list (option string) :=
  flat_map ecsCluster t.

(** The stage of the pipeline a call belongs to: the configuration, the
    inspector, the drainer, the reaper, the destroyer.  Log lines have
    none. *)
Definition stage (ev : Event) : list nat :=
  match projT1 ev with
  | LoadDefaultConfig _ => [0]
  | ListStackResources _ _ => [1]
  | ListServices _ _ | UpdateService _ _ | ServicesStableWait _ _ _
  | DeleteService _ _ => [2]
  | ListTasks _ _ | StopTask _ _ => [3]
  | CmdRun _ => [4]
  | LogOutput _ => []
  end%nat.

Definition stages (t : Trace) : list nat := flat_map stage t.




(** The line the drainer and the reaper owe the log for an event: nothing
    for a request answered without error, and for a failed update, wait,
    deletion or stop the line that names the service or task by its short
    name and gives the error. *)
Definition failureLine (ev : Event) : list string :=
  match ev with
  | existT _ c r =>
      match c return Resp c -> list string with
      | UpdateService _ input =>
          fun r =>
            match r with
            | Some e =>
                ["Failed to update service("
                 ++ aws_ToString (UpdateServiceInput.Service input)
                 ++ ") desiredCount=0: " ++ e]
            | None => []
            end
      | ServicesStableWait _ input _ =>
          fun r =>
            match r with
            | Some e =>
                ["waitForServiceStable failed for service("
                 ++ hd "" (DescribeServicesInput.Services input)
                 ++ "): " ++ e]
            | None => []
            end
      | DeleteService _ input =>
          fun r =>
            match r with
            | Some e =>
                ["Failed to delete service("
                 ++ aws_ToString (DeleteServiceInput.Service input)
                 ++ "): " ++ e]
            | None => []
            end
      | StopTask _ input =>
          fun r =>
            match r, arnToName (aws_ToString (StopTaskInput.Task input)) with
            | Some e, Some taskName =>
                ["Failed to stop task(" ++ taskName ++ "): " ++ e]
            | _, _ => []
            end
      | _ => fun _ => []
      end r
  end.

(** Every event of the trace that is owed a line is followed at once by
    that line. *)
Fixpoint reported (t : Trace) : Prop :=
  match t with
  | [] => True
  | ev :: rest =>
      match failureLine ev with
      | [] => True
      | line :: _ =>
          match rest with
          | next :: _ => projT1 next = LogOutput line
          | [] => False
          end
      end /\ reported rest
  end.

(** The last event of the trace is owed no line. *)
Definition endsQuietly (t : Trace) : Prop :=
  match rev t with
  | [] => True
  | ev :: _ => failureLine ev = []
  end.

(** The name the inspector takes from a list of stack resources: the
    identifier of the first cluster summary, the empty name without one. *)
Definition inspectedName (res : ListStackResourcesOutput.t) : string :=
  match find isEcsCluster
             (ListStackResourcesOutput.StackResourceSummaries res) with
  | Some r => aws_ToString (StackResourceSummary.PhysicalResourceId r)
  | None => ""
  end.

(** The first cluster summary of the resources has no identifier. *)
Definition clusterLacksId (res : ListStackResourcesOutput.t) : bool :=
  match find isEcsCluster
             (ListStackResourcesOutput.StackResourceSummaries res) with
  | Some r =>
      match StackResourceSummary.PhysicalResourceId r with
      | Some _ => false
      | None => true
      end
  | None => false
  end.

(** The reaper's requests for the tasks [arns]: one stop each, in order,
    whatever the answers. *)
Inductive Reaped (cfg : aws_Config) (clusterName : string)
  : list string -> Trace -> Prop :=
| Reaped_nil : Reaped cfg clusterName [] []
| Reaped_cons (taskArn : string) (r : option error) (rest : list string)
    (t : Trace) :
    Reaped cfg clusterName rest t ->
    Reaped cfg clusterName (taskArn :: rest)
      (event (StopTask cfg (stopForCleanup clusterName taskArn)) r :: t).

(** How the command ends the run: status nil and [main] returns, or an error
    and exit status 1. *)
Definition DestroyEnd (status : option error) (o : Outcome unit) : Prop :=
  match status with
  | None => o = Returned tt
  | Some _ => o = Exited 1
  end.

(** The runs of [main], log lines left out: how the run ends and the calls
    it has made with their answers. *)
Inductive MainShape (plan : Plan.t) : Outcome unit -> Trace -> Prop :=
| shape_flags_rejected :
    Plan.accepted plan = false ->
    MainShape plan (Exited 1) []
| shape_load_failed (e : error) :
    Plan.accepted plan = true ->
    MainShape plan (Exited 1)
      [event (LoadDefaultConfig (Plan.loadOptions plan)) (Err e)]
| shape_inspector_failed (cfg : aws_Config) (e : error) :
    Plan.accepted plan = true ->
    MainShape plan (Exited 1)
      [event (LoadDefaultConfig (Plan.loadOptions plan)) (Ok cfg);
       event (ListStackResources cfg (listResourcesOf (Plan.stack plan)))
             (Err e)]
| shape_inspector_panicked (cfg : aws_Config)
    (res : ListStackResourcesOutput.t) :
    Plan.accepted plan = true ->
    Plan.nilSafe plan = false ->
    clusterLacksId res = true ->
    MainShape plan (Panicked nilDereference)
      [event (LoadDefaultConfig (Plan.loadOptions plan)) (Ok cfg);
       event (ListStackResources cfg (listResourcesOf (Plan.stack plan)))
             (Ok res)]
| shape_no_cluster (cfg : aws_Config) (res : ListStackResourcesOutput.t)
    (status : option error) (o : Outcome unit) :
    Plan.accepted plan = true ->
    inspectedName res = "" ->
    (Plan.nilSafe plan = false -> clusterLacksId res = false) ->
    DestroyEnd status o ->
    MainShape plan o
      [event (LoadDefaultConfig (Plan.loadOptions plan)) (Ok cfg);
       event (ListStackResources cfg (listResourcesOf (Plan.stack plan)))
             (Ok res);
       event (CmdRun (Plan.command plan)) status]
| shape_drainer_failed (cfg : aws_Config) (res : ListStackResourcesOutput.t)
    (e : error) :
    Plan.accepted plan = true ->
    inspectedName res <> "" ->
    MainShape plan (Exited 1)
      [event (LoadDefaultConfig (Plan.loadOptions plan)) (Ok cfg);
       event (ListStackResources cfg (listResourcesOf (Plan.stack plan)))
             (Ok res);
       event (ListServices cfg (listServicesOf (inspectedName res))) (Err e)]
| shape_reaper_failed (cfg : aws_Config) (res : ListStackResourcesOutput.t)
    (services : ListServicesOutput.t) (td : Trace) (e : error) :
    Plan.accepted plan = true ->
    inspectedName res <> "" ->
    Drained cfg (inspectedName res)
            (ListServicesOutput.ServiceArns services) td ->
    MainShape plan (Exited 1)
      ([event (LoadDefaultConfig (Plan.loadOptions plan)) (Ok cfg);
        event (ListStackResources cfg (listResourcesOf (Plan.stack plan)))
              (Ok res);
        event (ListServices cfg (listServicesOf (inspectedName res)))
              (Ok services)]
       ++ td
       ++ [event (ListTasks cfg (listRunningTasksOf (inspectedName res)))
                 (Err e)])%list
| shape_destroyed (cfg : aws_Config) (res : ListStackResourcesOutput.t)
    (services : ListServicesOutput.t) (td : Trace)
    (tasks : ListTasksOutput.t) (tr : Trace)
    (status : option error) (o : Outcome unit) :
    Plan.accepted plan = true ->
    inspectedName res <> "" ->
    Drained cfg (inspectedName res)
            (ListServicesOutput.ServiceArns services) td ->
    Reaped cfg (inspectedName res) (ListTasksOutput.TaskArns tasks) tr ->
    DestroyEnd status o ->
    MainShape plan o
      ([event (LoadDefaultConfig (Plan.loadOptions plan)) (Ok cfg);
        event (ListStackResources cfg (listResourcesOf (Plan.stack plan)))
              (Ok res);
        event (ListServices cfg (listServicesOf (inspectedName res)))
              (Ok services)]
       ++ td
       ++ [event (ListTasks cfg (listRunningTasksOf (inspectedName res)))
                 (Ok tasks)]
       ++ tr
       ++ [event (CmdRun (Plan.command plan)) status])%list.

(* ================================================================== *)
(** ** Runs on concrete inputs *)
(* ================================================================== *)

Example strings_Split_pieces :
  strings_Split "a/b//c" "/" = ["a"; "b"; ""; "c"].
Proof. reflexivity. Qed.

Example arnToName_task :
  arnToName "arn:aws:ecs:region:acct:task/cluster-x/0123abcd"
  = Some "0123abcd".
Proof. reflexivity. Qed.

(** A whole run on a cluster with the services A and B and one task. *)
Example main_on_busy_cluster :
  let flags := {| AppPath.stackName := "my-stack"; AppPath.profile := "";
                  AppPath.cdkAppPath := "bin/app.ts";
                  AppPath.cdkAppRoot := "/app" |} in
  let result := run (busyEnv clusterStack) (AppPath.main flags) [] in
  fst result = Returned tt /\
  apiCalls (snd result)
  = [LoadDefaultConfig [];
     ListStackResources someConfig (listResourcesOf "my-stack");
     ListServices someConfig (listServicesOf "cluster-x");
     UpdateService someConfig (updateToZero "cluster-x" "A");
     ServicesStableWait someConfig (describeOne "cluster-x" "A")
                        (10 * time_Minute);
     DeleteService someConfig (forceDelete "cluster-x" "A");
     UpdateService someConfig (updateToZero "cluster-x" "B");
     ListTasks someConfig (listRunningTasksOf "cluster-x");
     StopTask someConfig
       (stopForCleanup "cluster-x"
          "arn:aws:ecs:region:acct:task/cluster-x/0123abcd");
     CmdRun {| Cmd.Name := "cdk";
               Cmd.Args := ["destroy"; "--all"; "--force";
                            "--app"; "npx ts-node bin/app.ts"];
               Cmd.Dir := "/app";
               Cmd.Stdout := Some os_Stdout;
               Cmd.Stderr := Some os_Stderr |}].
Proof. split; reflexivity. Qed.

(** The same run in the other revision: the entry path is joined from the
    directory and the file, and the command has no working directory. *)
Example main_on_busy_cluster_AppFile :
  let flags := {| AppFile.stackName := "my-stack"; AppFile.profile := "";
                  AppFile.region := "us-east-1";
                  AppFile.cdkAppDir := "/app";
                  AppFile.cdkAppFile := "bin/app.ts" |} in
  let result := run (busyEnv clusterStack)
                    (AppFile.main joinWithSlash flags) [] in
  fst result = Returned tt /\
  filter (fun c => match c with CmdRun _ => true | _ => false end)
         (calls (snd result))
  = [CmdRun {| Cmd.Name := "cdk";
               Cmd.Args := ["destroy"; "--all"; "--force";
                            "--app"; "npx ts-node /app/bin/app.ts"];
               Cmd.Dir := "";
               Cmd.Stdout := Some os_Stdout;
               Cmd.Stderr := Some os_Stderr |}].
Proof. split; reflexivity. Qed.

(* ================================================================== *)
(** ** Short-name extraction *)
(* ================================================================== *)

Section ShortName.

Variable sep : ascii.

Lemma strings_Split_nonempty (s : string) : strings_Split s sep <> [].
Proof.
  destruct s as [|c rest]; simpl; [discriminate|].
  destruct (Ascii.eqb c sep); [discriminate|].
  destruct (strings_Split rest sep); discriminate.
Qed.

(** A string without the separator is its own single piece. *)
Lemma strings_Split_no_sep (s : string) :
  containsByte sep s = false -> strings_Split s sep = [s].
Proof.
  induction s as [|c rest IH]; simpl; [reflexivity|].
  intros H. apply orb_false_iff in H as [Hc Hrest].
  now rewrite Hc, (IH Hrest).
Qed.

(** Splitting distributes over an occurrence of the separator. *)
Lemma strings_Split_app (pre suf : string) :
  strings_Split (pre ++ String sep suf) sep
  = (strings_Split pre sep ++ strings_Split suf sep)%list.
Proof.
  induction pre as [|c p IH]; simpl.
  - now rewrite Ascii.eqb_refl.
  - destruct (Ascii.eqb c sep); rewrite IH; [reflexivity|].
    destruct (strings_Split p sep) as [|q qs] eqn:E; [|reflexivity].
    now apply strings_Split_nonempty in E.
Qed.

(** Every string is free of the separator, or ends in a separator followed
    by a piece free of it. *)
Lemma final_separator (s : string) :
  containsByte sep s = false \/
  exists pre suf, s = pre ++ String sep suf /\ containsByte sep suf = false.
Proof.
  induction s as [|c rest [IH | (pre & suf & -> & Hsuf)]].
  - now left.
  - simpl. destruct (Ascii.eqb c sep) eqn:E.
    + right. exists "", rest. apply Ascii.eqb_eq in E. now subst c.
    + now left.
  - right. now exists (String c pre), suf.
Qed.

Lemma sliceAt_last (a : list string) (x : string) :
  sliceAt (a ++ [x])%list (len (a ++ [x])%list - 1) = Some x.
Proof.
  unfold sliceAt, len. rewrite length_app. simpl.
  replace (Z.of_nat (List.length a + 1) - 1)%Z
    with (Z.of_nat (List.length a)) by lia.
  destruct (Z.ltb_spec (Z.of_nat (List.length a)) 0); [lia|].
  rewrite Nat2Z.id, nth_error_app2 by lia.
  now rewrite Nat.sub_diag.
Qed.

End ShortName.

Lemma arnToName_no_sep (arn : string) :
  containsByte "/" arn = false -> arnToName arn = Some arn.
Proof.
  intros H. unfold arnToName.
  rewrite (strings_Split_no_sep _ _ H). reflexivity.
Qed.

Lemma arnToName_app (pre suf : string) :
  containsByte "/" suf = false ->
  arnToName (pre ++ String "/" suf) = Some suf.
Proof.
  intros H. unfold arnToName.
  rewrite strings_Split_app, (strings_Split_no_sep _ _ H).
  apply sliceAt_last.
Qed.

(** The bounds check of [parts[len(parts)-1]] never fails. *)
Lemma arnToName_total (arn : string) : exists name, arnToName arn = Some name.
Proof.
  destruct (final_separator "/" arn) as [H | (pre & suf & -> & H)].
  - exists arn. now apply arnToName_no_sep.
  - exists suf. now apply arnToName_app.
Qed.

(** C7: short-name extraction returns what follows the final '/': the result
    holds no '/', and the input is either the result itself or some prefix,
    a '/', and the result.  An input without '/' comes back unchanged, and
    the service ARN of the specification gives "my-service". *)
Theorem arnToName_after_final_separator :
  (forall arn, exists name,
      arnToName arn = Some name /\
      containsByte "/" name = false /\
      (arn = name \/ exists pre, arn = pre ++ String "/" name)) /\
  (forall arn, containsByte "/" arn = false -> arnToName arn = Some arn) /\
  (forall pre name, containsByte "/" name = false ->
      arnToName (pre ++ "/" ++ name) = Some name) /\
  arnToName "arn:aws:ecs:region:acct:service/cluster-x/my-service"
  = Some "my-service".
Proof.
  split; [|split; [|split]].
  - intros arn.
    destruct (final_separator "/" arn) as [H | (pre & suf & -> & H)].
    + exists arn. split; [now apply arnToName_no_sep | now split; [|left]].
    + exists suf. split; [now apply arnToName_app | split; [assumption|]].
      right. now exists pre.
  - apply arnToName_no_sep.
  - intros pre name H. now apply arnToName_app.
  - reflexivity.
Qed.

Lemma arnToName_after_final_separator_witness :
  arnToName "my-task" = Some "my-task" /\
  arnToName ("cluster-x" ++ "/" ++ "0123abcd") = Some "0123abcd".
Proof.
  split.
  - apply (proj1 (proj2 arnToName_after_final_separator)). reflexivity.
  - apply (proj1 (proj2 (proj2 arnToName_after_final_separator))). reflexivity.
Defined.

(** C10: short-name extraction never fails: the split always has at least one
    piece, so the index [len(parts)-1] is in bounds and a name is returned for
    every input; the empty string and every input ending in '/' give the
    empty string. *)
Theorem arnToName_never_panics :
  (forall arn, strings_Split arn "/" <> []) /\
  (forall arn,
      (0 <= len (strings_Split arn "/") - 1 < len (strings_Split arn "/"))%Z) /\
  (forall arn, exists name, arnToName arn = Some name) /\
  arnToName "" = Some "" /\
  (forall pre, arnToName (pre ++ "/") = Some "").
Proof.
  split; [|split; [|split; [|split]]].
  - intros arn. apply strings_Split_nonempty.
  - intros arn. pose proof (strings_Split_nonempty "/" arn) as H. unfold len.
    destruct (strings_Split arn "/"); [congruence|].
    cbn [List.length]. lia.
  - apply arnToName_total.
  - reflexivity.
  - intros pre. now apply (arnToName_app pre "").
Qed.

(* ================================================================== *)
(** ** Running programs *)
(* ================================================================== *)

Section Running.

Variable env : Env.

(** A sequence runs its first part, then the rest after the events of the
    first part; a panic or an exit ends the run. *)
Lemma run_bind {A B : Type} (p : Prog A) (f : A -> Prog B) (past : Trace) :
  run env (bind p f) past =
  match run env p past with
  | (Returned a, t) =>
      let (o, t') := run env (f a) (past ++ t)%list in (o, (t ++ t')%list)
  | (Panicked msg, t) => (Panicked msg, t)
  | (Exited code, t) => (Exited code, t)
  end.
Proof.
  revert past. induction p as [a | msg | code | c k IH]; intros past.
  - cbn. rewrite app_nil_r. now destruct (run env (f a) past).
  - reflexivity.
  - reflexivity.
  - cbn. rewrite IH.
    destruct (run env (k (env past c)) (past ++ [event c (env past c)])%list)
      as [[a | msg | code] t]; try reflexivity.
    rewrite <- app_assoc. cbn.
    now destruct (run env (f a) (past ++ event c (env past c) :: t)%list).
Qed.

Lemma run_log_Printf (line : string) (past : Trace) :
  run env (log_Printf line) past = (Returned tt, [event (LogOutput line) tt]).
Proof.
  unfold log_Printf. cbn. now destruct (env past (LogOutput line)).
Qed.

Lemma run_forRange_cons {A : Type} (x : A) (rest : list A)
    (body : A -> Prog unit) (past : Trace) (t : Trace) :
  run env (body x) past = (Returned tt, t) ->
  run env (forRange (x :: rest) body) past =
  let (o, t') := run env (forRange rest body) (past ++ t)%list in
  (o, (t ++ t')%list).
Proof.
  intros H. cbn [forRange]. now rewrite run_bind, H.
Qed.

End Running.

Lemma apiEvents_app (t t' : Trace) :
  apiEvents (t ++ t')%list = (apiEvents t ++ apiEvents t')%list.
Proof. apply filter_app. Qed.

Lemma calls_app (t t' : Trace) :
  calls (t ++ t')%list = (calls t ++ calls t')%list.
Proof. apply map_app. Qed.

Lemma stopRequests_app (t t' : Trace) :
  stopRequests (t ++ t')%list = (stopRequests t ++ stopRequests t')%list.
Proof. unfold stopRequests. now rewrite calls_app, flat_map_app. Qed.

Lemma never_bind {A B : Type} (P : Call -> bool) (p : Prog A)
    (f : A -> Prog B) :
  never P p -> (forall a, never P (f a)) -> never P (bind p f).
Proof.
  induction p as [a | msg | code | c k IH]; cbn; intros Hp Hf; auto.
  destruct Hp as [Hc Hk]. split; auto.
Qed.

Lemma never_forRange {A : Type} (P : Call -> bool) (xs : list A)
    (body : A -> Prog unit) :
  (forall x, never P (body x)) -> never P (forRange xs body).
Proof.
  intros H. induction xs as [|x rest IH]; cbn [forRange].
  - exact I.
  - apply never_bind; auto.
Qed.

(** Unfold the program up to its next calls. *)
Ltac step :=
  cbn [bind call log_Printf log_Fatal logIfErr fatalIfErr must run
       waitForServiceStable app];
  repeat match goal with
         | |- context [?e ?h (LogOutput ?l)] =>
             match type of e with
             | Env => destruct (e h (LogOutput l))
             end
         end;
  cbn [bind call log_Printf log_Fatal logIfErr fatalIfErr must run
       waitForServiceStable app].

(** Split on the environment's answer to the pending call [C]. *)
Ltac answer C :=
  match goal with
  | |- context [?e ?h (C ?c ?i)] =>
      match type of e with
      | Env => let r := fresh "r" in
               let E := fresh "E" in
               destruct (e h (C c i)) as [r|] eqn:E
      end
  | |- context [?e ?h (C ?c ?i ?w)] =>
      match type of e with
      | Env => let r := fresh "r" in
               let E := fresh "E" in
               destruct (e h (C c i w)) as [r|] eqn:E
      end
  end.

(* ================================================================== *)
(** ** The service drainer *)
(* ================================================================== *)

Section Drainer.

Variable env : Env.
Variable cfg : aws_Config.
Variable clusterName : string.

(** One turn of the loop returns, and its calls are the service's share
    of [Drained]. *)
Lemma deleteEcsServices_body_run (svcArn : string) (past : Trace) :
  exists t,
    run env (deleteEcsServices_body cfg clusterName svcArn) past
    = (Returned tt, t) /\
    forall rest t', Drained cfg clusterName rest t' ->
      Drained cfg clusterName (svcArn :: rest) (apiEvents t ++ t')%list.
Proof.
  destruct (arnToName_total svcArn) as [svcName Hname].
  unfold deleteEcsServices_body. rewrite Hname.
  step. answer UpdateService; step.
  - eexists. split; [reflexivity|].
    intros rest t' H. cbn. now apply Drained_update_failed.
  - answer ServicesStableWait; step; answer DeleteService; step;
      (eexists; split; [reflexivity|]);
      intros rest t' H; cbn; now apply Drained_update_ok.
Qed.

(** The loop returns for every list of services. *)
Lemma deleteEcsServices_loop_run (arns : list string) (past : Trace) :
  exists t,
    run env (forRange arns (deleteEcsServices_body cfg clusterName)) past
    = (Returned tt, t) /\
    Drained cfg clusterName arns (apiEvents t).
Proof.
  revert past. induction arns as [|svcArn rest IH]; intros past.
  - exists []. split; [reflexivity | constructor].
  - destruct (deleteEcsServices_body_run svcArn past) as (t & Ht & Hd).
    destruct (IH (past ++ t)%list) as (t' & Ht' & Hd').
    exists (t ++ t')%list.
    rewrite (run_forRange_cons _ _ _ _ _ _ Ht), Ht'.
    split; [reflexivity|]. rewrite apiEvents_app. now apply Hd.
Qed.

(** The services whose update is requested, in order. *)
Lemma Drained_updates (arns : list string) (t : Trace) :
  Drained cfg clusterName arns t ->
  flat_map (fun c => match c with
                     | UpdateService _ input =>
                         [UpdateServiceInput.Service input]
                     | _ => []
                     end) (calls t)
  = map arnToName arns.
Proof.
  induction 1 as [| svcArn svcName e rest t Hn _ IH
                  | svcArn svcName w d rest t Hn _ IH]; cbn.
  - reflexivity.
  - now rewrite Hn, <- IH.
  - now rewrite Hn, <- IH.
Qed.

Lemma deleteEcsServices_run (past : Trace) :
  let list := ListServices cfg (listServicesOf clusterName) in
  match env past list with
  | Err err =>
      run env (deleteEcsServices cfg clusterName) past
      = (Returned (Some ("ListServices error: " ++ err)),
         [event list (Err err)])
  | Ok listOut =>
      exists t,
        run env (deleteEcsServices cfg clusterName) past
        = (Returned None, event list (Ok listOut) :: t) /\
        Drained cfg clusterName (ListServicesOutput.ServiceArns listOut)
                (apiEvents t) /\
        (ListServicesOutput.ServiceArns listOut = [] ->
         t = [event (LogOutput ("No ECS services found in cluster: "
                                ++ clusterName)) tt])
  end.
Proof.
  cbn zeta. unfold deleteEcsServices. step.
  change {| ListServicesInput.Cluster := Some clusterName;
            ListServicesInput.NextToken := None |}
    with (listServicesOf clusterName).
  destruct (env past (ListServices cfg (listServicesOf clusterName)))
    as [listOut | err]; [|reflexivity].
  destruct listOut as [arns tok]. cbn [ListServicesOutput.ServiceArns].
  destruct arns as [|svcArn rest].
  - cbn [len List.length Z.of_nat Z.eqb]. step.
    eexists. split; [reflexivity|]. split; [constructor | reflexivity].
  - replace (len (svcArn :: rest) =? 0)%Z with false
      by (unfold len; cbn [List.length]; symmetry; apply Z.eqb_neq; lia).
    set (l := ListServices cfg (listServicesOf clusterName)).
    set (ev := event l (Ok {| ListServicesOutput.ServiceArns := svcArn :: rest;
                              ListServicesOutput.NextToken := tok |})).
    destruct (deleteEcsServices_loop_run (svcArn :: rest) (past ++ [ev])%list)
      as (t & Ht & Hd).
    rewrite run_bind, Ht. cbn [run].
    exists (t ++ [])%list. split; [reflexivity|].
    rewrite app_nil_r. split; [assumption | discriminate].
Qed.

End Drainer.

(** C2: the drainer takes the services in list order; a service whose update
    to desired count zero fails gets neither a wait nor a deletion and the
    next service is taken; a service whose update succeeds gets its wait and,
    whatever the wait answers, its forced deletion.  For the services [A, B]
    with the update of A succeeding and the update of B failing, the calls
    are: list, update A, wait A, delete A, update B. *)
Theorem deleteEcsServices_drains_in_list_order :
  (forall (env : Env) (past : Trace) (cfg : aws_Config) (clusterName : string)
          (listOut : ListServicesOutput.t),
      env past (ListServices cfg (listServicesOf clusterName)) = Ok listOut ->
      exists t,
        apiEvents (snd (run env (deleteEcsServices cfg clusterName) past))
        = event (ListServices cfg (listServicesOf clusterName)) (Ok listOut)
          :: t /\
        Drained cfg clusterName (ListServicesOutput.ServiceArns listOut) t /\
        flat_map (fun c => match c with
                           | UpdateService _ input =>
                               [UpdateServiceInput.Service input]
                           | _ => []
                           end) (calls t)
        = map arnToName (ListServicesOutput.ServiceArns listOut)) /\
  (forall (env : Env) (past : Trace) (cfg : aws_Config) (clusterName : string)
          (arnA arnB A B : string) (tok : option string) (e : error),
      arnToName arnA = Some A ->
      arnToName arnB = Some B ->
      env past (ListServices cfg (listServicesOf clusterName))
      = Ok {| ListServicesOutput.ServiceArns := [arnA; arnB];
              ListServicesOutput.NextToken := tok |} ->
      (forall h, env h (UpdateService cfg (updateToZero clusterName A))
                 = None) ->
      (forall h, env h (UpdateService cfg (updateToZero clusterName B))
                 = Some e) ->
      apiCalls (snd (run env (deleteEcsServices cfg clusterName) past))
      = [ListServices cfg (listServicesOf clusterName);
         UpdateService cfg (updateToZero clusterName A);
         ServicesStableWait cfg (describeOne clusterName A) (10 * time_Minute);
         DeleteService cfg (forceDelete clusterName A);
         UpdateService cfg (updateToZero clusterName B)]).
Proof.
  split.
  - intros env past cfg clusterName listOut Hlist.
    pose proof (deleteEcsServices_run env cfg clusterName past) as H.
    cbn zeta in H. rewrite Hlist in H. destruct H as (t & Hrun & Hd & _).
    exists (apiEvents t). rewrite Hrun. cbn.
    split; [reflexivity|]. split; [assumption|].
    now apply Drained_updates with (cfg := cfg) (clusterName := clusterName).
  - intros env past cfg clusterName arnA arnB A B tok e HA HB Hlist HuA HuB.
    unfold deleteEcsServices. step.
    change {| ListServicesInput.Cluster := Some clusterName;
              ListServicesInput.NextToken := None |}
      with (listServicesOf clusterName).
    rewrite Hlist. cbn [ListServicesOutput.ServiceArns len List.length
                        Z.of_nat Z.eqb Pos.of_succ_nat Pos.succ forRange].
    unfold deleteEcsServices_body. rewrite HA, HB. step.
    change {| UpdateServiceInput.Cluster := Some clusterName;
              UpdateServiceInput.Service := Some A;
              UpdateServiceInput.DesiredCount := Some 0%Z |}
      with (updateToZero clusterName A).
    rewrite HuA. step.
    answer ServicesStableWait; step; answer DeleteService; step;
      change {| UpdateServiceInput.Cluster := Some clusterName;
                UpdateServiceInput.Service := Some B;
                UpdateServiceInput.DesiredCount := Some 0%Z |}
        with (updateToZero clusterName B);
      rewrite HuB; step; reflexivity.
Qed.

Lemma deleteEcsServices_drains_in_list_order_witness :
  (exists t,
      apiEvents (snd (run (busyEnv []) (deleteEcsServices someConfig "cluster-x")
                          []))
      = event (ListServices someConfig (listServicesOf "cluster-x"))
              (Ok {| ListServicesOutput.ServiceArns :=
                       ["arn:aws:ecs:region:acct:service/cluster-x/A";
                        "arn:aws:ecs:region:acct:service/cluster-x/B"];
                     ListServicesOutput.NextToken := Some "page-2" |})
        :: t /\
      Drained someConfig "cluster-x"
              ["arn:aws:ecs:region:acct:service/cluster-x/A";
               "arn:aws:ecs:region:acct:service/cluster-x/B"] t /\
      flat_map (fun c => match c with
                         | UpdateService _ input =>
                             [UpdateServiceInput.Service input]
                         | _ => []
                         end) (calls t)
      = [Some "A"; Some "B"]) /\
  apiCalls (snd (run (busyEnv []) (deleteEcsServices someConfig "cluster-x") []))
  = [ListServices someConfig (listServicesOf "cluster-x");
     UpdateService someConfig (updateToZero "cluster-x" "A");
     ServicesStableWait someConfig (describeOne "cluster-x" "A")
                        (10 * time_Minute);
     DeleteService someConfig (forceDelete "cluster-x" "A");
     UpdateService someConfig (updateToZero "cluster-x" "B")].
Proof.
  split.
  { apply (proj1 deleteEcsServices_drains_in_list_order
             (busyEnv []) [] someConfig "cluster-x"
             {| ListServicesOutput.ServiceArns :=
                  ["arn:aws:ecs:region:acct:service/cluster-x/A";
                   "arn:aws:ecs:region:acct:service/cluster-x/B"];
                ListServicesOutput.NextToken := Some "page-2" |}).
    reflexivity. }
  apply (proj2 deleteEcsServices_drains_in_list_order)
    with (arnA := "arn:aws:ecs:region:acct:service/cluster-x/A")
         (arnB := "arn:aws:ecs:region:acct:service/cluster-x/B")
         (tok := Some "page-2") (e := "AccessDeniedException").
  - reflexivity.
  - reflexivity.
  - reflexivity.
  - intros h. reflexivity.
  - intros h. reflexivity.
Defined.

(** C5: the drainer returns a failure exactly when its listing call fails;
    whatever the updates, waits and deletions answer, it returns nil after a
    listing that succeeded; an empty list of services is a successful no-op
    that only reports so. *)
Theorem deleteEcsServices_fails_only_on_listing
    (env : Env) (past : Trace) (cfg : aws_Config) (clusterName : string) :
  let list := ListServices cfg (listServicesOf clusterName) in
  let result := run env (deleteEcsServices cfg clusterName) past in
  fst result
  = Returned (match env past list with
              | Ok _ => None
              | Err err => Some ("ListServices error: " ++ err)
              end) /\
  ((exists e, fst result = Returned (Some e)) <->
   (exists err, env past list = Err err)) /\
  (forall listOut,
      env past list = Ok listOut ->
      ListServicesOutput.ServiceArns listOut = [] ->
      fst result = Returned None /\
      snd result
      = [event list (Ok listOut);
         event (LogOutput ("No ECS services found in cluster: "
                           ++ clusterName)) tt]).
Proof.
  intros list result. subst result.
  pose proof (deleteEcsServices_run env cfg clusterName past) as H.
  cbn zeta in H. fold list in H.
  destruct (env past list) as [listOut | err].
  - destruct H as (t & Hrun & _ & Hempty). rewrite Hrun. cbn [fst snd].
    split; [reflexivity|]. split.
    + split; intros [x Hx]; discriminate Hx.
    + intros listOut' Heq Harns. injection Heq as <-.
      now rewrite (Hempty Harns).
  - rewrite H. cbn [fst snd].
    split; [reflexivity|]. split.
    + split; intros _; eauto.
    + intros listOut Heq. discriminate Heq.
Qed.

Lemma deleteEcsServices_fails_only_on_listing_witness :
  fst (run quietEnv (deleteEcsServices someConfig "cluster-x") [])
  = Returned None /\
  snd (run quietEnv (deleteEcsServices someConfig "cluster-x") [])
  = [event (ListServices someConfig (listServicesOf "cluster-x"))
           (Ok {| ListServicesOutput.ServiceArns := [];
                  ListServicesOutput.NextToken := None |});
     event (LogOutput "No ECS services found in cluster: cluster-x") tt].
Proof.
  apply (proj2 (proj2 (deleteEcsServices_fails_only_on_listing
                         quietEnv [] someConfig "cluster-x"))).
  - reflexivity.
  - reflexivity.
Defined.

(* ================================================================== *)
(** ** The task reaper *)
(* ================================================================== *)

Section Reaper.

Variable env : Env.
Variable cfg : aws_Config.
Variable clusterName : string.

(** One turn of the loop returns after exactly one stop request, whatever
    the request answers. *)
Lemma stopRemainingTasks_body_run (taskArn : string) (past : Trace) :
  exists t,
    run env (stopRemainingTasks_body cfg clusterName taskArn) past
    = (Returned tt, t) /\
    stopRequests t = [stopForCleanup clusterName taskArn].
Proof.
  destruct (arnToName_total taskArn) as [taskName Hname].
  unfold stopRemainingTasks_body. rewrite Hname.
  step. answer StopTask; step; eexists; split; reflexivity.
Qed.

Lemma stopRemainingTasks_loop_run (arns : list string) (past : Trace) :
  exists t,
    run env (forRange arns (stopRemainingTasks_body cfg clusterName)) past
    = (Returned tt, t) /\
    stopRequests t = map (stopForCleanup clusterName) arns.
Proof.
  revert past. induction arns as [|taskArn rest IH]; intros past.
  - exists []. split; reflexivity.
  - destruct (stopRemainingTasks_body_run taskArn past) as (t & Ht & Hs).
    destruct (IH (past ++ t)%list) as (t' & Ht' & Hs').
    exists (t ++ t')%list.
    rewrite (run_forRange_cons _ _ _ _ _ _ Ht), Ht'.
    split; [reflexivity|]. now rewrite stopRequests_app, Hs, Hs'.
Qed.

End Reaper.

(** Both revisions of [stopRemainingTasks] differ in one log line only; this
    proves the contract for a revision once it is unfolded. *)
Ltac reaper_loop :=
  let t := fresh "t" in
  let Ht := fresh "Ht" in
  let Hs := fresh "Hs" in
  match goal with
  | |- context [run ?env (bind (forRange ?l (stopRemainingTasks_body ?cfg ?cl))
                               ?f) ?h] =>
      destruct (stopRemainingTasks_loop_run env cfg cl l h) as (t & Ht & Hs);
      rewrite run_bind, Ht;
      cbn [run fst snd];
      split; [reflexivity|]; split;
      [ rewrite app_nil_r; exact Hs
      | let Heq := fresh "Heq" in
        let Hnil := fresh "Hnil" in
        intros ? Heq Hnil; injection Heq as <-; discriminate Hnil ]
  end.

Ltac reaper_contract :=
  let env := fresh "env" in
  let past := fresh "past" in
  let cfg := fresh "cfg" in
  let clusterName := fresh "clusterName" in
  let arns := fresh "arns" in
  let Heq := fresh "Heq" in
  intros env past cfg clusterName; cbv zeta;
  step;
  change {| ListTasksInput.Cluster := Some clusterName;
            ListTasksInput.DesiredStatus := Some DesiredStatusRunning;
            ListTasksInput.NextToken := None |}
    with (listRunningTasksOf clusterName);
  destruct (env past (ListTasks cfg (listRunningTasksOf clusterName)))
    as [[arns ?] | ?];
  [ cbn [ListTasksOutput.TaskArns];
    destruct arns as [|? ?];
    [ cbn [len List.length Z.of_nat Z.eqb]; step;
      split; [reflexivity|]; split; [reflexivity|];
      intros ? Heq _; now injection Heq as <-
    | match goal with
      | |- context [(len ?l =? 0)%Z] =>
          replace (len l =? 0)%Z with false
            by (unfold len; cbn [List.length]; symmetry; apply Z.eqb_neq; lia)
      end;
      reaper_loop ]
  | cbn [fst snd]; split; [reflexivity|]; split; [reflexivity|];
    intros ? Heq; discriminate Heq ].

(** C6: for every list of running tasks the reaper issues exactly one stop
    request per task, in order, each with the reason "Cleanup before destroy";
    for an empty list it issues none and reports the empty cluster; whatever
    the stop requests answer it goes on and returns nil; a failed listing
    makes it return a failure.  This holds in both revisions, which differ in
    the line reported for an empty cluster. *)
Theorem stopRemainingTasks_one_stop_per_task :
  ReaperContract AppFile.stopRemainingTasks
                 (fun c => "No running tasks found in cluster: " ++ c) /\
  ReaperContract AppPath.stopRemainingTasks
                 (fun c => "No running tasks in cluster: " ++ c).
Proof.
  split.
  - unfold ReaperContract, AppFile.stopRemainingTasks. reaper_contract.
  - unfold ReaperContract, AppPath.stopRemainingTasks. reaper_contract.
Qed.

Lemma stopRemainingTasks_one_stop_per_task_witness :
  snd (run quietEnv (AppFile.stopRemainingTasks someConfig "cluster-x") [])
  = [event (ListTasks someConfig (listRunningTasksOf "cluster-x"))
           (Ok {| ListTasksOutput.TaskArns := [];
                  ListTasksOutput.NextToken := None |});
     event (LogOutput "No running tasks found in cluster: cluster-x") tt] /\
  snd (run quietEnv (AppPath.stopRemainingTasks someConfig "cluster-x") [])
  = [event (ListTasks someConfig (listRunningTasksOf "cluster-x"))
           (Ok {| ListTasksOutput.TaskArns := [];
                  ListTasksOutput.NextToken := None |});
     event (LogOutput "No running tasks in cluster: cluster-x") tt].
Proof.
  split.
  - apply (proj2 (proj2 (proj1 stopRemainingTasks_one_stop_per_task
                           quietEnv [] someConfig "cluster-x")));
      reflexivity.
  - apply (proj2 (proj2 (proj2 stopRemainingTasks_one_stop_per_task
                           quietEnv [] someConfig "cluster-x")));
      reflexivity.
Defined.

(* ================================================================== *)
(** ** The destroyer invoker *)
(* ================================================================== *)

Lemma destroyArgs_no_profile (entryPath : string) :
  destroyArgs "" entryPath
  = ["destroy"; "--all"; "--force"; "--app"; "npx ts-node " ++ entryPath].
Proof. reflexivity. Qed.

Lemma destroyArgs_profile (profile entryPath : string) :
  profile <> "" ->
  destroyArgs profile entryPath
  = ["destroy"; "--all"; "--force"; "--profile"; profile;
     "--app"; "npx ts-node " ++ entryPath].
Proof.
  intros H. unfold destroyArgs.
  apply String.eqb_neq in H. now rewrite H.
Qed.

(** What [runCdkDestroy] of the revision with [--cdk-app-root] does. *)
Lemma AppPath_runCdkDestroy_run (env : Env) (past : Trace)
    (profile cdkAppRoot cdkAppPath : string) :
  let cmd := {| Cmd.Name := "cdk";
                Cmd.Args := destroyArgs profile cdkAppPath;
                Cmd.Dir := cdkAppRoot;
                Cmd.Stdout := Some os_Stdout;
                Cmd.Stderr := Some os_Stderr |} in
  let line := event (LogOutput ("Executing: cdk "
                ++ strings_Join (destroyArgs profile cdkAppPath) " ")) tt in
  let status := env (past ++ [line])%list (CmdRun cmd) in
  run env (AppPath.runCdkDestroy profile cdkAppRoot cdkAppPath) past
  = (Returned status, [line; event (CmdRun cmd) status]).
Proof.
  unfold AppPath.runCdkDestroy, destroyArgs.
  destruct (profile =? ""); step; reflexivity.
Qed.

(** What [runCdkDestroy] of the revision with [--cdk-app-dir] does. *)
Lemma AppFile_runCdkDestroy_run (env : Env) (past : Trace)
    (filepath_Join : list string -> string)
    (stackName profile region cdkAppDir cdkAppFile : string) :
  let appPath := filepath_Join [cdkAppDir; cdkAppFile] in
  let cmd := {| Cmd.Name := "cdk";
                Cmd.Args := destroyArgs profile appPath;
                Cmd.Dir := "";
                Cmd.Stdout := Some os_Stdout;
                Cmd.Stderr := Some os_Stderr |} in
  let line := event (LogOutput ("Executing: cdk "
                ++ strings_Join (destroyArgs profile appPath) " ")) tt in
  let status := env (past ++ [line])%list (CmdRun cmd) in
  run env (AppFile.runCdkDestroy filepath_Join stackName profile region
                                 cdkAppDir cdkAppFile) past
  = (Returned status, [line; event (CmdRun cmd) status]).
Proof.
  unfold AppFile.runCdkDestroy, destroyArgs.
  destruct (profile =? ""); step; reflexivity.
Qed.

(** C1, as the code has it: in the revision with [--cdk-app-root] and
    [--cdk-app-path] the invoker logs the command line and runs [cdk] once,
    with the arguments [destroy --all --force [--profile P] --app
    "npx ts-node <entry-path>"] (the profile pair present exactly for a
    non-empty profile), in the working directory [cdkAppRoot], and returns the
    status of the child; profile "prod", root "/app" and entry path
    "/app/bin/app.ts" give the arguments of the specification and the
    directory "/app".  In the revision with [--cdk-app-dir] and
    [--cdk-app-file] the arguments are the same with the entry path
    [filepath.Join(cdkAppDir, cdkAppFile)], and the working directory of the
    command is left unset. *)
Theorem runCdkDestroy_composes_the_command :
  (forall (env : Env) (past : Trace) (profile cdkAppRoot cdkAppPath : string),
      let cmd := {| Cmd.Name := "cdk";
                    Cmd.Args := destroyArgs profile cdkAppPath;
                    Cmd.Dir := cdkAppRoot;
                    Cmd.Stdout := Some os_Stdout;
                    Cmd.Stderr := Some os_Stderr |} in
      let line := event (LogOutput ("Executing: cdk "
                    ++ strings_Join (destroyArgs profile cdkAppPath) " ")) tt in
      let status := env (past ++ [line])%list (CmdRun cmd) in
      run env (AppPath.runCdkDestroy profile cdkAppRoot cdkAppPath) past
      = (Returned status, [line; event (CmdRun cmd) status])) /\
  (forall entryPath,
      destroyArgs "" entryPath
      = ["destroy"; "--all"; "--force"; "--app"; "npx ts-node " ++ entryPath]) /\
  (forall profile entryPath,
      profile <> "" ->
      destroyArgs profile entryPath
      = ["destroy"; "--all"; "--force"; "--profile"; profile;
         "--app"; "npx ts-node " ++ entryPath]) /\
  (forall (env : Env) (past : Trace),
      calls (snd (run env (AppPath.runCdkDestroy "prod" "/app"
                                                 "/app/bin/app.ts") past))
      = [LogOutput "Executing: cdk destroy --all --force --profile prod --app npx ts-node /app/bin/app.ts";
         CmdRun {| Cmd.Name := "cdk";
                   Cmd.Args := ["destroy"; "--all"; "--force";
                                "--profile"; "prod";
                                "--app"; "npx ts-node /app/bin/app.ts"];
                   Cmd.Dir := "/app";
                   Cmd.Stdout := Some os_Stdout;
                   Cmd.Stderr := Some os_Stderr |}]) /\
  (forall (env : Env) (past : Trace) (filepath_Join : list string -> string)
          (stackName profile region cdkAppDir cdkAppFile : string),
      let appPath := filepath_Join [cdkAppDir; cdkAppFile] in
      let cmd := {| Cmd.Name := "cdk";
                    Cmd.Args := destroyArgs profile appPath;
                    Cmd.Dir := "";
                    Cmd.Stdout := Some os_Stdout;
                    Cmd.Stderr := Some os_Stderr |} in
      let line := event (LogOutput ("Executing: cdk "
                    ++ strings_Join (destroyArgs profile appPath) " ")) tt in
      let status := env (past ++ [line])%list (CmdRun cmd) in
      run env (AppFile.runCdkDestroy filepath_Join stackName profile region
                                     cdkAppDir cdkAppFile) past
      = (Returned status, [line; event (CmdRun cmd) status])).
Proof.
  split; [exact AppPath_runCdkDestroy_run|].
  split; [exact destroyArgs_no_profile|].
  split; [exact destroyArgs_profile|].
  split; [|exact AppFile_runCdkDestroy_run].
  intros env past. now rewrite AppPath_runCdkDestroy_run.
Qed.

Lemma runCdkDestroy_composes_the_command_witness :
  destroyArgs "prod" "/app/bin/app.ts"
  = ["destroy"; "--all"; "--force"; "--profile"; "prod";
     "--app"; "npx ts-node /app/bin/app.ts"].
Proof.
  apply (proj1 (proj2 (proj2 runCdkDestroy_composes_the_command))).
  discriminate.
Defined.

(** C1 as stated fails in the revision with [--cdk-app-dir]: for the profile
    "prod", the directory "/app" and the file "bin/app.ts" the arguments are
    those of the specification, but no command is run with the working
    directory "/app": the one command of the run has none set. *)
Lemma runCdkDestroy_AppFile_leaves_directory_unset :
  let t := snd (run quietEnv
                    (AppFile.runCdkDestroy joinWithSlash "my-stack" "prod"
                                           "us-east-1" "/app" "bin/app.ts") [])
  in
  calls t
  = [LogOutput "Executing: cdk destroy --all --force --profile prod --app npx ts-node /app/bin/app.ts";
     CmdRun {| Cmd.Name := "cdk";
               Cmd.Args := ["destroy"; "--all"; "--force"; "--profile"; "prod";
                            "--app"; "npx ts-node /app/bin/app.ts"];
               Cmd.Dir := "";
               Cmd.Stdout := Some os_Stdout;
               Cmd.Stderr := Some os_Stderr |}] /\
  ~ (exists cmd, In (CmdRun cmd) (calls t) /\ Cmd.Dir cmd = "/app").
Proof.
  cbv zeta. split; [reflexivity|].
  intros (cmd & Hin & Hdir). cbn in Hin.
  destruct Hin as [H | [H | []]]; [discriminate H|].
  injection H as <-. discriminate Hdir.
Qed.

(* ================================================================== *)
(** ** The stack inspector *)
(* ================================================================== *)

(** The loop of the revision with [--cdk-app-dir]: the identifier of the
    first cluster summary, read with [aws.ToString]. *)
Lemma AppFile_loop_first_cluster (summaries : list StackResourceSummary.t) :
  AppFile.getEcsClusterNameFromStack_loop summaries
  = Ret (match find isEcsCluster summaries with
         | Some r => aws_ToString (StackResourceSummary.PhysicalResourceId r)
         | None => ""
         end, None).
Proof.
  induction summaries as [|r rest IH]; cbn; [reflexivity|].
  now destruct (isEcsCluster r).
Qed.

(** The loop of the revision with [--cdk-app-root]: the identifier of the
    first cluster summary, and a panic when that summary has none. *)
Lemma AppPath_loop_first_cluster (summaries : list StackResourceSummary.t) :
  AppPath.getEcsClusterNameFromStack_loop summaries
  = match find isEcsCluster summaries with
    | Some r =>
        match StackResourceSummary.PhysicalResourceId r with
        | Some id => Ret (id, None)
        | None => Panic nilDereference
        end
    | None => Ret ("", None)
    end.
Proof.
  induction summaries as [|r rest IH]; cbn; [reflexivity|].
  destruct (isEcsCluster r); [|exact IH].
  now destruct (StackResourceSummary.PhysicalResourceId r).
Qed.

(** C3 fails in the revision with [--cdk-app-root]: for a stack whose only
    cluster summary has no physical identifier the inspector does not return;
    it panics on the nil dereference.  The revision with [--cdk-app-dir]
    returns the empty name without error for the same stack. *)
Theorem getEcsClusterNameFromStack_panics_without_identifier :
  run (busyEnv clusterWithoutId)
      (AppPath.getEcsClusterNameFromStack someConfig "my-stack") []
  = (Panicked nilDereference,
     [event (ListStackResources someConfig (listResourcesOf "my-stack"))
            (Ok {| ListStackResourcesOutput.StackResourceSummaries :=
                     clusterWithoutId;
                   ListStackResourcesOutput.NextToken := Some "page-2" |})]) /\
  run (busyEnv clusterWithoutId)
      (AppFile.getEcsClusterNameFromStack someConfig "my-stack") []
  = (Returned ("", None),
     [event (ListStackResources someConfig (listResourcesOf "my-stack"))
            (Ok {| ListStackResourcesOutput.StackResourceSummaries :=
                     clusterWithoutId;
                   ListStackResourcesOutput.NextToken := Some "page-2" |})]).
Proof. split; reflexivity. Qed.

Section Inspector.

Variable env : Env.
Variable cfg : aws_Config.
Variable stackName : string.

(** The inspector of the revision with [--cdk-app-dir] always returns:
    the listing error, or the identifier of the first cluster summary, or
    the empty name. *)
Lemma AppFile_getEcsClusterNameFromStack_run (past : Trace) :
  let list := ListStackResources cfg (listResourcesOf stackName) in
  run env (AppFile.getEcsClusterNameFromStack cfg stackName) past
  = (Returned
       match env past list with
       | Err err => ("", Some err)
       | Ok res =>
           (match find isEcsCluster
                    (ListStackResourcesOutput.StackResourceSummaries res) with
            | Some r =>
                aws_ToString (StackResourceSummary.PhysicalResourceId r)
            | None => ""
            end, None)
       end,
     [event list (env past list)]).
Proof.
  cbv zeta. unfold AppFile.getEcsClusterNameFromStack. step.
  change {| ListStackResourcesInput.StackName := Some stackName;
            ListStackResourcesInput.NextToken := None |}
    with (listResourcesOf stackName).
  destruct (env past (ListStackResources cfg (listResourcesOf stackName)))
    as [res | err]; [|reflexivity].
  now rewrite AppFile_loop_first_cluster.
Qed.

(** The inspector of the revision with [--cdk-app-root]: the listing error,
    or the identifier of the first cluster summary, or the empty name; and a
    panic when the first cluster summary has no identifier. *)
Lemma AppPath_getEcsClusterNameFromStack_run (past : Trace) :
  let list := ListStackResources cfg (listResourcesOf stackName) in
  run env (AppPath.getEcsClusterNameFromStack cfg stackName) past
  = (match env past list with
     | Err err => Returned ("", Some err)
     | Ok res =>
         match find isEcsCluster
                    (ListStackResourcesOutput.StackResourceSummaries res) with
         | Some r =>
             match StackResourceSummary.PhysicalResourceId r with
             | Some id => Returned (id, None)
             | None => Panicked nilDereference
             end
         | None => Returned ("", None)
         end
     end,
     [event list (env past list)]).
Proof.
  cbv zeta. unfold AppPath.getEcsClusterNameFromStack. step.
  change {| ListStackResourcesInput.StackName := Some stackName;
            ListStackResourcesInput.NextToken := None |}
    with (listResourcesOf stackName).
  destruct (env past (ListStackResources cfg (listResourcesOf stackName)))
    as [res | err]; [|reflexivity].
  rewrite AppPath_loop_first_cluster.
  destruct (find isEcsCluster _) as [r|]; [|reflexivity].
  now destruct (StackResourceSummary.PhysicalResourceId r).
Qed.

Lemma AppPath_getEcsClusterNameFromStack_trace (past : Trace) :
  let list := ListStackResources cfg (listResourcesOf stackName) in
  snd (run env (AppPath.getEcsClusterNameFromStack cfg stackName) past)
  = [event list (env past list)].
Proof. cbv zeta. now rewrite AppPath_getEcsClusterNameFromStack_run. Qed.

Lemma AppFile_getEcsClusterNameFromStack_trace (past : Trace) :
  let list := ListStackResources cfg (listResourcesOf stackName) in
  snd (run env (AppFile.getEcsClusterNameFromStack cfg stackName) past)
  = [event list (env past list)].
Proof. cbv zeta. now rewrite AppFile_getEcsClusterNameFromStack_run. Qed.

End Inspector.

(* ================================================================== *)
(** ** The whole run *)
(* ================================================================== *)

(** C8: with an empty [--stack] flag the run logs the error line and exits
    with status 1; nothing else happens: no configuration is loaded, no cloud
    call is made and [cdk] is not run.  This holds in both revisions. *)
Theorem main_exits_without_stack :
  (forall (env : Env) (past : Trace) (filepath_Join : list string -> string)
          (flags : AppFile.Flags),
      AppFile.stackName flags = "" ->
      run env (AppFile.main filepath_Join flags) past
      = (Exited 1,
         [event (LogOutput "Error: --stack を指定してください。") tt]) /\
      exitStatus (fst (run env (AppFile.main filepath_Join flags) past))
      <> 0%Z) /\
  (forall (env : Env) (past : Trace) (flags : AppPath.Flags),
      AppPath.stackName flags = "" ->
      run env (AppPath.main flags) past
      = (Exited 1,
         [event (LogOutput "Error: --stack を指定してください。") tt]) /\
      exitStatus (fst (run env (AppPath.main flags) past)) <> 0%Z).
Proof.
  split.
  - intros env past filepath_Join flags H.
    assert (run env (AppFile.main filepath_Join flags) past
            = (Exited 1,
               [event (LogOutput "Error: --stack を指定してください。") tt]))
      as Hrun.
    { unfold AppFile.main. rewrite H. cbn [String.eqb]. now step. }
    rewrite Hrun. split; [reflexivity | discriminate].
  - intros env past flags H.
    assert (run env (AppPath.main flags) past
            = (Exited 1,
               [event (LogOutput "Error: --stack を指定してください。") tt]))
      as Hrun.
    { unfold AppPath.main. rewrite H. cbn [String.eqb]. now step. }
    rewrite Hrun. split; [reflexivity | discriminate].
Qed.

Lemma main_exits_without_stack_witness :
  run quietEnv
      (AppFile.main joinWithSlash
         {| AppFile.stackName := ""; AppFile.profile := "prod";
            AppFile.region := "us-east-1"; AppFile.cdkAppDir := "/app";
            AppFile.cdkAppFile := "bin/app.ts" |}) []
  = (Exited 1, [event (LogOutput "Error: --stack を指定してください。") tt]) /\
  run quietEnv
      (AppPath.main
         {| AppPath.stackName := ""; AppPath.profile := "prod";
            AppPath.cdkAppPath := "/app/bin/app.ts";
            AppPath.cdkAppRoot := "/app" |}) []
  = (Exited 1, [event (LogOutput "Error: --stack を指定してください。") tt]).
Proof.
  split.
  - apply (proj1 main_exits_without_stack). reflexivity.
  - apply (proj2 main_exits_without_stack). reflexivity.
Defined.

(** C4: when the inspector returns the empty cluster name, the run makes no
    call to ECS (no service is listed, updated, waited for or deleted, no
    task is listed or stopped) and still runs [cdk destroy]: besides log
    lines, the run loads the configuration, lists the stack resources and
    runs the command.  This holds in both revisions. *)
Theorem main_skips_ecs_without_cluster :
  (forall (env : Env) (past : Trace) (filepath_Join : list string -> string)
          (flags : AppFile.Flags) (cfg : aws_Config) (t0 : Trace),
      AppFile.stackName flags <> "" ->
      run env (AppFile.loadAWSConfig (AppFile.profile flags)
                                     (AppFile.region flags)) past
      = (Returned (Ok cfg), t0) ->
      fst (run env (AppFile.getEcsClusterNameFromStack
                      cfg (AppFile.stackName flags)) (past ++ t0)%list)
      = Returned ("", None) ->
      let t := snd (run env (AppFile.main filepath_Join flags) past) in
      forallb (fun c => negb (isEcsCall c)) (calls t) = true /\
      exists cmd,
        apiCalls t
        = (apiCalls t0
           ++ [ListStackResources cfg (listResourcesOf (AppFile.stackName flags));
               CmdRun cmd])%list /\
        Cmd.Name cmd = "cdk" /\
        Cmd.Args cmd
        = destroyArgs (AppFile.profile flags)
            (filepath_Join [AppFile.cdkAppDir flags; AppFile.cdkAppFile flags]))
  /\
  (forall (env : Env) (past : Trace) (flags : AppPath.Flags)
          (cfg : aws_Config) (t0 : Trace),
      AppPath.stackName flags <> "" ->
      AppPath.cdkAppPath flags <> "" ->
      run env (AppPath.loadAWSConfig (AppPath.profile flags)) past
      = (Returned (Ok cfg), t0) ->
      fst (run env (AppPath.getEcsClusterNameFromStack
                      cfg (AppPath.stackName flags)) (past ++ t0)%list)
      = Returned ("", None) ->
      let t := snd (run env (AppPath.main flags) past) in
      forallb (fun c => negb (isEcsCall c)) (calls t) = true /\
      exists cmd,
        apiCalls t
        = (apiCalls t0
           ++ [ListStackResources cfg (listResourcesOf (AppPath.stackName flags));
               CmdRun cmd])%list /\
        Cmd.Name cmd = "cdk" /\
        Cmd.Args cmd
        = destroyArgs (AppPath.profile flags) (AppPath.cdkAppPath flags)).
Proof.
  split.
  - intros env past filepath_Join flags cfg t0 Hstack Hload Hinsp. cbv zeta.
    apply String.eqb_neq in Hstack.
    unfold AppFile.main. rewrite Hstack. cbn [bind].
    rewrite run_bind, Hload.
    pose proof (AppFile_getEcsClusterNameFromStack_trace
                  env cfg (AppFile.stackName flags) (past ++ t0)%list) as Ht.
    cbv zeta in Ht.
    rewrite run_bind.
    destruct (run env (AppFile.getEcsClusterNameFromStack
                         cfg (AppFile.stackName flags)) (past ++ t0)%list)
      as [o t1].
    cbn [fst snd] in Hinsp, Ht. subst o t1.
    cbn [fatalIfErr bind String.eqb].
    rewrite run_bind, run_log_Printf.
    rewrite run_bind, AppFile_runCdkDestroy_run.
    unfold AppFile.loadAWSConfig in Hload. cbn in Hload.
    injection Hload as Hcfg <-.
    match goal with
    | |- context [fatalIfErr (env ?h (CmdRun ?c))] =>
        destruct (env h (CmdRun c)) as [e|]
    end; step; (split; [reflexivity|]); eexists;
      (split; [reflexivity|]); split; reflexivity.
  - intros env past flags cfg t0 Hstack Hpath Hload Hinsp. cbv zeta.
    apply String.eqb_neq in Hstack, Hpath.
    unfold AppPath.main. rewrite Hstack, Hpath. cbn [bind].
    rewrite run_bind, Hload.
    pose proof (AppPath_getEcsClusterNameFromStack_trace
                  env cfg (AppPath.stackName flags) (past ++ t0)%list) as Ht.
    cbv zeta in Ht.
    rewrite run_bind.
    destruct (run env (AppPath.getEcsClusterNameFromStack
                         cfg (AppPath.stackName flags)) (past ++ t0)%list)
      as [o t1].
    cbn [fst snd] in Hinsp, Ht. subst o t1.
    cbn [fatalIfErr bind String.eqb].
    rewrite run_bind, run_log_Printf.
    rewrite run_bind, AppPath_runCdkDestroy_run.
    unfold AppPath.loadAWSConfig in Hload. cbn in Hload.
    injection Hload as Hcfg <-.
    match goal with
    | |- context [fatalIfErr (env ?h (CmdRun ?c))] =>
        destruct (env h (CmdRun c)) as [e|]
    end; step; (split; [reflexivity|]); eexists;
      (split; [reflexivity|]); split; reflexivity.
Qed.

Lemma main_skips_ecs_without_cluster_witness :
  let t0 := [event (LoadDefaultConfig [WithSharedConfigProfile "prod"])
                   (Ok someConfig)] in
  let flags := {| AppPath.stackName := "my-stack"; AppPath.profile := "prod";
                  AppPath.cdkAppPath := "/app/bin/app.ts";
                  AppPath.cdkAppRoot := "/app" |} in
  let t := snd (run quietEnv (AppPath.main flags) []) in
  forallb (fun c => negb (isEcsCall c)) (calls t) = true /\
  exists cmd,
    apiCalls t
    = (apiCalls t0
       ++ [ListStackResources someConfig (listResourcesOf "my-stack");
           CmdRun cmd])%list /\
    Cmd.Name cmd = "cdk" /\
    Cmd.Args cmd = destroyArgs "prod" "/app/bin/app.ts".
Proof.
  cbv zeta.
  apply (proj2 main_skips_ecs_without_cluster quietEnv []
           {| AppPath.stackName := "my-stack"; AppPath.profile := "prod";
              AppPath.cdkAppPath := "/app/bin/app.ts";
              AppPath.cdkAppRoot := "/app" |}
           someConfig
           [event (LoadDefaultConfig [WithSharedConfigProfile "prod"])
                  (Ok someConfig)]).
  - discriminate.
  - discriminate.
  - reflexivity.
  - reflexivity.
Defined.

(* ================================================================== *)
(** ** Pagination *)
(* ================================================================== *)

(** A program that never makes a call satisfying [P] leaves none in any
    trace. *)
Lemma never_run {A : Type} (P : Call -> bool) (p : Prog A) :
  never P p ->
  forall (env : Env) (past : Trace),
    filter P (calls (snd (run env p past))) = [].
Proof.
  induction p as [a | msg | code | c k IH]; intros Hn env past;
    try reflexivity.
  destruct Hn as [Hc Hk]. cbn [run].
  specialize (IH (env past c) (Hk (env past c)) env
                 (past ++ [event c (env past c)])%list).
  destruct (run env (k (env past c)) (past ++ [event c (env past c)])%list)
    as [o t].
  cbn [snd calls map filter projT1 event] in *. now rewrite Hc.
Qed.

(** A program that starts with a list call and never lists again has that
    one list call in every trace. *)
Lemma one_list_call {A : Type} (list : Call) (k : Resp list -> Prog A) :
  isListCall list = true ->
  (forall r, never isListCall (k r)) ->
  forall (env : Env) (past : Trace),
    filter isListCall (calls (snd (run env (Vis list k) past))) = [list].
Proof.
  intros Hl Hk env past. cbn [run].
  pose proof (never_run isListCall _ (Hk (env past list)) env
                (past ++ [event list (env past list)])%list) as H.
  destruct (run env (k (env past list))
                (past ++ [event list (env past list)])%list) as [o t].
  cbn [snd calls map filter projT1 event] in *. now rewrite Hl, H.
Qed.

Lemma never_log_Printf (P : Call -> bool) (line : string) :
  P (LogOutput line) = false -> never P (log_Printf line).
Proof. intros H. cbn. now split. Qed.

Lemma never_logIfErr (P : Call -> bool) (err : option error)
    (line : error -> string) :
  (forall l, P (LogOutput l) = false) -> never P (logIfErr err line).
Proof.
  intros H. destruct err; cbn [logIfErr]; [|exact I].
  now apply never_log_Printf.
Qed.

Lemma never_deleteEcsServices_body (cfg : aws_Config)
    (clusterName svcArn : string) :
  never isListCall (deleteEcsServices_body cfg clusterName svcArn).
Proof.
  unfold deleteEcsServices_body.
  destruct (arnToName svcArn) as [svcName|]; cbn [must bind]; [|exact I].
  apply never_bind; [now apply never_log_Printf|]. intros _.
  cbn [bind call never]. split; [reflexivity|]. intros [e|].
  - now apply never_log_Printf.
  - cbn [bind call never waitForServiceStable]. split; [reflexivity|].
    intros w. apply never_bind; [now apply never_logIfErr|]. intros _.
    apply never_bind; [now apply never_log_Printf|]. intros _.
    cbn [bind call never]. split; [reflexivity|]. intros d.
    now apply never_logIfErr.
Qed.

Lemma never_stopRemainingTasks_body (cfg : aws_Config)
    (clusterName taskArn : string) :
  never isListCall (stopRemainingTasks_body cfg clusterName taskArn).
Proof.
  unfold stopRemainingTasks_body.
  destruct (arnToName taskArn) as [taskName|]; cbn [must bind]; [|exact I].
  apply never_bind; [now apply never_log_Printf|]. intros _.
  cbn [bind call never]. split; [reflexivity|]. intros r.
  now apply never_logIfErr.
Qed.

Lemma never_AppFile_loop (P : Call -> bool)
    (summaries : list StackResourceSummary.t) :
  never P (AppFile.getEcsClusterNameFromStack_loop summaries).
Proof. now rewrite AppFile_loop_first_cluster. Qed.

Lemma never_AppPath_loop (P : Call -> bool)
    (summaries : list StackResourceSummary.t) :
  never P (AppPath.getEcsClusterNameFromStack_loop summaries).
Proof.
  rewrite AppPath_loop_first_cluster.
  destruct (find isEcsCluster summaries) as [r|]; [|exact I].
  now destruct (StackResourceSummary.PhysicalResourceId r).
Qed.

(** Reading one page, from what the program does after its list call. *)
Lemma reads_one_page {A : Type} (list : Call) (k : Resp list -> Prog A)
    (withoutToken : Resp list -> Resp list) :
  isListCall list = true ->
  (forall r, k r = k (withoutToken r)) ->
  (forall r, never isListCall (k r)) ->
  ReadsOnePage (Vis list k) list withoutToken.
Proof.
  intros Hl Htok Hnever. exists k.
  split; [reflexivity|]. split; [assumption|]. split; [assumption|].
  now apply one_list_call.
Qed.

Ltac after_list_never :=
  let r := fresh "r" in
  intros r; destruct r as [[? ?] | ?]; cbn [bind];
  [ match goal with
    | |- context [(len ?l =? 0)%Z] => destruct (len l =? 0)%Z
    end;
    apply never_bind;
    try (now apply never_log_Printf);
    try (intros; exact I);
    apply never_forRange;
    first [ apply never_deleteEcsServices_body
          | apply never_stopRemainingTasks_body ]
  | exact I ].

(** C9: the stack inspector, the service drainer and the task reaper each
    ask for the first page of their listing (no token in the request), go on
    in the same way whatever continuation token the answer carries, and make
    no further list call: in every run the list call is made exactly once, so
    nothing beyond the first page is ever fetched, inspected, drained or
    stopped.  This holds in both revisions. *)
Theorem list_calls_read_one_page :
  (forall cfg stackName,
      ReadsOnePage (AppFile.getEcsClusterNameFromStack cfg stackName)
        (ListStackResources cfg (listResourcesOf stackName))
        withoutResourcesToken) /\
  (forall cfg stackName,
      ReadsOnePage (AppPath.getEcsClusterNameFromStack cfg stackName)
        (ListStackResources cfg (listResourcesOf stackName))
        withoutResourcesToken) /\
  (forall cfg clusterName,
      ReadsOnePage (deleteEcsServices cfg clusterName)
        (ListServices cfg (listServicesOf clusterName))
        withoutServicesToken) /\
  (forall cfg clusterName,
      ReadsOnePage (AppFile.stopRemainingTasks cfg clusterName)
        (ListTasks cfg (listRunningTasksOf clusterName))
        withoutTasksToken) /\
  (forall cfg clusterName,
      ReadsOnePage (AppPath.stopRemainingTasks cfg clusterName)
        (ListTasks cfg (listRunningTasksOf clusterName))
        withoutTasksToken) /\
  (forall stackName,
      ListStackResourcesInput.NextToken (listResourcesOf stackName) = None) /\
  (forall clusterName,
      ListServicesInput.NextToken (listServicesOf clusterName) = None) /\
  (forall clusterName,
      ListTasksInput.NextToken (listRunningTasksOf clusterName) = None).
Proof.
  repeat match goal with |- _ /\ _ => split end; try reflexivity;
    intros cfg name.
  - apply reads_one_page; [reflexivity | now intros [[? ?] | ?] |].
    intros [[summaries tok] | err]; [|exact I]. apply never_AppFile_loop.
  - apply reads_one_page; [reflexivity | now intros [[? ?] | ?] |].
    intros [[summaries tok] | err]; [|exact I]. apply never_AppPath_loop.
  - apply reads_one_page; [reflexivity | now intros [[? ?] | ?] |].
    after_list_never.
  - apply reads_one_page; [reflexivity | now intros [[? ?] | ?] |].
    after_list_never.
  - apply reads_one_page; [reflexivity | now intros [[? ?] | ?] |].
    after_list_never.
Qed.

(* ================================================================== *)
(** ** The shape of whole runs *)
(* ================================================================== *)

Section ReaperShape.

Variable env : Env.
Variable cfg : aws_Config.
Variable clusterName : string.

Lemma stopRemainingTasks_body_reaped (taskArn : string) (past : Trace) :
  exists t,
    run env (stopRemainingTasks_body cfg clusterName taskArn) past
    = (Returned tt, t) /\
    forall rest t', Reaped cfg clusterName rest t' ->
      Reaped cfg clusterName (taskArn :: rest) (apiEvents t ++ t')%list.
Proof.
  destruct (arnToName_total taskArn) as [taskName Hname].
  unfold stopRemainingTasks_body. rewrite Hname.
  step. answer StopTask; step;
    (eexists; split; [reflexivity|]);
    intros rest t' H; cbn; now apply Reaped_cons.
Qed.

Lemma stopRemainingTasks_loop_reaped (arns : list string) (past : Trace) :
  exists t,
    run env (forRange arns (stopRemainingTasks_body cfg clusterName)) past
    = (Returned tt, t) /\
    Reaped cfg clusterName arns (apiEvents t).
Proof.
  revert past. induction arns as [|taskArn rest IH]; intros past.
  - exists []. split; [reflexivity | constructor].
  - destruct (stopRemainingTasks_body_reaped taskArn past) as (t & Ht & Hr).
    destruct (IH (past ++ t)%list) as (t' & Ht' & Hr').
    exists (t ++ t')%list.
    rewrite (run_forRange_cons _ _ _ _ _ _ Ht), Ht'.
    split; [reflexivity|]. rewrite apiEvents_app. now apply Hr.
Qed.

End ReaperShape.

(** Proves what a run of [stopRemainingTasks] is, once the revision is
    unfolded. *)
Ltac reaper_run :=
  cbv zeta; unfold listRunningTasksOf; step;
  match goal with
  | |- match ?e ?h ?c with _ => _ end =>
      let arns := fresh "arns" in
      destruct (e h c) as [[arns ?] | ?]; [|reflexivity];
      cbn [ListTasksOutput.TaskArns];
      destruct arns as [|? ?];
      [ cbn [len List.length Z.of_nat Z.eqb]; step;
        eexists; split; [reflexivity | constructor]
      | match goal with
        | |- context [(len ?l =? 0)%Z] =>
            replace (len l =? 0)%Z with false
              by (unfold len; cbn [List.length]; symmetry;
                  apply Z.eqb_neq; lia)
        end;
        let t := fresh "t" in
        let Ht := fresh "Ht" in
        let Hr := fresh "Hr" in
        match goal with
        | |- context [run ?env
                        (bind (forRange ?l (stopRemainingTasks_body ?cfg ?cl))
                              ?f) ?h] =>
            destruct (stopRemainingTasks_loop_reaped env cfg cl l h)
              as (t & Ht & Hr);
            rewrite run_bind, Ht; cbn [run];
            exists (t ++ [])%list; split; [reflexivity|];
            rewrite app_nil_r; exact Hr
        end ]
  end.

Lemma AppFile_stopRemainingTasks_run (env : Env) (cfg : aws_Config)
    (clusterName : string) (past : Trace) :
  let list := ListTasks cfg (listRunningTasksOf clusterName) in
  match env past list with
  | Err err =>
      run env (AppFile.stopRemainingTasks cfg clusterName) past
      = (Returned (Some ("ListTasks error: " ++ err)), [event list (Err err)])
  | Ok listOut =>
      exists t,
        run env (AppFile.stopRemainingTasks cfg clusterName) past
        = (Returned None, event list (Ok listOut) :: t) /\
        Reaped cfg clusterName (ListTasksOutput.TaskArns listOut)
               (apiEvents t)
  end.
Proof. unfold AppFile.stopRemainingTasks. reaper_run. Qed.

Lemma AppPath_stopRemainingTasks_run (env : Env) (cfg : aws_Config)
    (clusterName : string) (past : Trace) :
  let list := ListTasks cfg (listRunningTasksOf clusterName) in
  match env past list with
  | Err err =>
      run env (AppPath.stopRemainingTasks cfg clusterName) past
      = (Returned (Some ("ListTasks error: " ++ err)), [event list (Err err)])
  | Ok listOut =>
      exists t,
        run env (AppPath.stopRemainingTasks cfg clusterName) past
        = (Returned None, event list (Ok listOut) :: t) /\
        Reaped cfg clusterName (ListTasksOutput.TaskArns listOut)
               (apiEvents t)
  end.
Proof. unfold AppPath.stopRemainingTasks. reaper_run. Qed.

Lemma apiEvents_cons (ev : Event) (t : Trace) :
  apiEvents (ev :: t)
  = if isLog (projT1 ev) then apiEvents t else ev :: apiEvents t.
Proof. unfold apiEvents. cbn. now destruct (isLog (projT1 ev)). Qed.

(** Reduce the non-log events of a trace made of known events and of the
    traces of the drainer and the reaper. *)
Ltac shape_events :=
  cbn [fst snd];
  repeat (rewrite ?apiEvents_cons, ?apiEvents_app;
          cbn [isLog projT1 event]);
  change (apiEvents []) with (@nil Event);
  rewrite ?app_nil_r;
  repeat rewrite <- app_assoc;
  cbn [app].

(** Split on the status of the command that ends a run. *)
Ltac destroy_end :=
  match goal with
  | |- context [fatalIfErr (?e ?h (CmdRun ?c))] =>
      destruct (e h (CmdRun c)) as [?|]
  end; step.

(** Every run of [main] of the revision with [--cdk-app-dir] has one of the
    shapes of [MainShape]. *)
Lemma AppFile_main_shape (env : Env) (past : Trace)
    (filepath_Join : list string -> string) (flags : AppFile.Flags) :
  MainShape (planAppFile filepath_Join flags)
    (fst (run env (AppFile.main filepath_Join flags) past))
    (apiEvents (snd (run env (AppFile.main filepath_Join flags) past))).
Proof.
  unfold AppFile.main.
  destruct (AppFile.stackName flags =? "") eqn:Hstack.
  { step. apply shape_flags_rejected. cbn. now rewrite Hstack. }
  assert (Plan.accepted (planAppFile filepath_Join flags) = true) as Hacc
    by (cbn; now rewrite Hstack).
  cbn [bind]. unfold AppFile.loadAWSConfig. step.
  destruct (env past (LoadDefaultConfig _)) as [cfg | e].
  2:{ step. now apply shape_load_failed. }
  rewrite run_bind, AppFile_getEcsClusterNameFromStack_run.
  destruct (env _ (ListStackResources _ _)) as [res | e].
  2:{ step. now apply shape_inspector_failed. }
  change (match find isEcsCluster
                  (ListStackResourcesOutput.StackResourceSummaries res) with
          | Some r => aws_ToString (StackResourceSummary.PhysicalResourceId r)
          | None => ""
          end) with (inspectedName res).
  cbn [fatalIfErr bind].
  destruct (inspectedName res =? "") eqn:Hname.
  - apply String.eqb_eq in Hname.
    rewrite run_bind, run_log_Printf, run_bind, AppFile_runCdkDestroy_run.
    destroy_end; now eapply shape_no_cluster.
  - apply String.eqb_neq in Hname.
    step. rewrite run_bind, run_bind.
    match goal with
    | |- context [run env (deleteEcsServices cfg ?cl) ?h] =>
        pose proof (deleteEcsServices_run env cfg cl h) as Hd
    end.
    cbv zeta in Hd.
    destruct (env _ (ListServices _ _)) as [services | e].
    2:{ rewrite Hd. step. now apply shape_drainer_failed. }
    destruct Hd as (td & -> & Hd & _).
    cbn [fatalIfErr bind]. rewrite run_bind.
    match goal with
    | |- context [run env (AppFile.stopRemainingTasks cfg ?cl) ?h] =>
        pose proof (AppFile_stopRemainingTasks_run env cfg cl h) as Hr
    end.
    cbv zeta in Hr.
    destruct (env _ (ListTasks _ _)) as [tasks | e].
    2:{ rewrite Hr. step. shape_events.
        now apply (shape_reaper_failed (planAppFile filepath_Join flags)
                     cfg res services (apiEvents td) e). }
    destruct Hr as (tr & -> & Hr).
    step. rewrite run_bind, AppFile_runCdkDestroy_run.
    destroy_end; shape_events;
      now eapply (shape_destroyed (planAppFile filepath_Join flags)
                    cfg res services (apiEvents td) tasks (apiEvents tr)).
Qed.

(** Every run of [main] of the revision with [--cdk-app-root] has one of the
    shapes of [MainShape]. *)
Lemma AppPath_main_shape (env : Env) (past : Trace) (flags : AppPath.Flags) :
  MainShape (planAppPath flags)
    (fst (run env (AppPath.main flags) past))
    (apiEvents (snd (run env (AppPath.main flags) past))).
Proof.
  unfold AppPath.main.
  destruct (AppPath.stackName flags =? "") eqn:Hstack.
  { step. apply shape_flags_rejected. cbn. now rewrite Hstack. }
  destruct (AppPath.cdkAppPath flags =? "") eqn:Hpath.
  { step. apply shape_flags_rejected. cbn. now rewrite Hstack, Hpath. }
  assert (Plan.accepted (planAppPath flags) = true) as Hacc
    by (cbn; now rewrite Hstack, Hpath).
  cbn [bind]. unfold AppPath.loadAWSConfig. step.
  destruct (env past (LoadDefaultConfig _)) as [cfg | e].
  2:{ step. now apply shape_load_failed. }
  rewrite run_bind, AppPath_getEcsClusterNameFromStack_run.
  destruct (env _ (ListStackResources _ _)) as [res | e].
  2:{ step. now apply shape_inspector_failed. }
  assert (match find isEcsCluster
                  (ListStackResourcesOutput.StackResourceSummaries res) with
          | Some r =>
              match StackResourceSummary.PhysicalResourceId r with
              | Some id => Returned (id, @None error)
              | None => Panicked nilDereference
              end
          | None => Returned ("", None)
          end
          = if clusterLacksId res then Panicked nilDereference
            else Returned (inspectedName res, None)) as ->.
  { unfold clusterLacksId, inspectedName.
    destruct (find isEcsCluster _) as [r|]; [|reflexivity].
    now destruct (StackResourceSummary.PhysicalResourceId r). }
  destruct (clusterLacksId res) eqn:Hid.
  { shape_events. now apply shape_inspector_panicked. }
  cbn [fatalIfErr bind].
  destruct (inspectedName res =? "") eqn:Hname.
  - apply String.eqb_eq in Hname.
    rewrite run_bind, run_log_Printf, run_bind, AppPath_runCdkDestroy_run.
    destroy_end; now eapply shape_no_cluster.
  - apply String.eqb_neq in Hname.
    rewrite run_bind, run_bind.
    match goal with
    | |- context [run env (deleteEcsServices cfg ?cl) ?h] =>
        pose proof (deleteEcsServices_run env cfg cl h) as Hd
    end.
    cbv zeta in Hd.
    destruct (env _ (ListServices _ _)) as [services | e].
    2:{ rewrite Hd. step. now apply shape_drainer_failed. }
    destruct Hd as (td & -> & Hd & _).
    cbn [fatalIfErr bind]. rewrite run_bind.
    match goal with
    | |- context [run env (AppPath.stopRemainingTasks cfg ?cl) ?h] =>
        pose proof (AppPath_stopRemainingTasks_run env cfg cl h) as Hr
    end.
    cbv zeta in Hr.
    destruct (env _ (ListTasks _ _)) as [tasks | e].
    2:{ rewrite Hr. step. shape_events.
        now apply (shape_reaper_failed (planAppPath flags)
                     cfg res services (apiEvents td) e). }
    destruct Hr as (tr & -> & Hr).
    step. rewrite run_bind, AppPath_runCdkDestroy_run.
    destroy_end; shape_events;
      now eapply (shape_destroyed (planAppPath flags)
                    cfg res services (apiEvents td) tasks (apiEvents tr)).
Qed.

(** *** Reading a trace *)

(** What is read off the events is read off the non-log events. *)
Lemma flat_map_apiEvents {B : Type} (f : Event -> list B) :
  (forall line u, f (event (LogOutput line) u) = []) ->
  forall t, flat_map f (apiEvents t) = flat_map f t.
Proof.
  intros Hlog t. induction t as [|[c r] t IH]; [reflexivity|].
  rewrite apiEvents_cons. cbn [projT1 flat_map].
  destruct c; cbn [isLog flat_map]; rewrite IH; try reflexivity.
  change (existT (fun c => Resp c) (LogOutput line) r)
    with (event (LogOutput line) r).
  now rewrite Hlog.
Qed.


Lemma commandsRun_apiEvents (t : Trace) :
  commandsRun (apiEvents t) = commandsRun t.
Proof. now apply flat_map_apiEvents. Qed.

Lemma listFailures_apiEvents (t : Trace) :
  listFailures (apiEvents t) = listFailures t.
Proof. now apply flat_map_apiEvents. Qed.

Lemma loadedConfigs_apiEvents (t : Trace) :
  loadedConfigs (apiEvents t) = loadedConfigs t.
Proof. now apply flat_map_apiEvents. Qed.

Lemma usedConfigs_apiEvents (t : Trace) :
  usedConfigs (apiEvents t) = usedConfigs t.
Proof. now apply flat_map_apiEvents. Qed.

Lemma listedResources_apiEvents (t : Trace) :
  listedResources (apiEvents t) = listedResources t.
Proof. now apply flat_map_apiEvents. Qed.

Lemma ecsClusters_apiEvents (t : Trace) :
  ecsClusters (apiEvents t) = ecsClusters t.
Proof. now apply flat_map_apiEvents. Qed.

Lemma stages_apiEvents (t : Trace) : stages (apiEvents t) = stages t.
Proof. now apply flat_map_apiEvents. Qed.

(** What is read off the requests of the drainer satisfies [P] when it does
    for each kind of request. *)
Lemma Drained_Forall {B : Type} (f : Event -> list B) (P : B -> Prop)
    (cfg : aws_Config) (clusterName : string) (arns : list string)
    (t : Trace) :
  (forall svcName r,
      Forall P (f (event (UpdateService cfg (updateToZero clusterName svcName))
                         r))) ->
  (forall svcName r,
      Forall P (f (event (ServicesStableWait cfg
                            (describeOne clusterName svcName)
                            (10 * time_Minute)) r))) ->
  (forall svcName r,
      Forall P (f (event (DeleteService cfg (forceDelete clusterName svcName))
                         r))) ->
  Drained cfg clusterName arns t ->
  Forall P (flat_map f t).
Proof.
  intros Hu Hw Hd. induction 1; cbn [flat_map].
  - constructor.
  - apply Forall_app. split; [apply Hu | assumption].
  - repeat (apply Forall_app; split); auto.
Qed.

Lemma Reaped_Forall {B : Type} (f : Event -> list B) (P : B -> Prop)
    (cfg : aws_Config) (clusterName : string) (arns : list string)
    (t : Trace) :
  (forall taskArn r,
      Forall P (f (event (StopTask cfg (stopForCleanup clusterName taskArn))
                         r))) ->
  Reaped cfg clusterName arns t ->
  Forall P (flat_map f t).
Proof.
  intros Hs. induction 1; cbn [flat_map].
  - constructor.
  - apply Forall_app. split; [apply Hs | assumption].
Qed.

Lemma Forall_False_nil {B : Type} (l : list B) :
  Forall (fun _ => False) l -> l = [].
Proof. destruct 1; [reflexivity | contradiction]. Qed.

(** The requests of the drainer and of the reaper show nothing to a reading
    that is empty on each of them. *)
Lemma Drained_silent {B : Type} (f : Event -> list B)
    (cfg : aws_Config) (clusterName : string) (arns : list string)
    (t : Trace) :
  (forall i r, f (event (UpdateService cfg i) r) = []) ->
  (forall i w r, f (event (ServicesStableWait cfg i w) r) = []) ->
  (forall i r, f (event (DeleteService cfg i) r) = []) ->
  Drained cfg clusterName arns t ->
  flat_map f t = [].
Proof.
  intros Hu Hw Hd H. apply Forall_False_nil.
  apply (Drained_Forall f _ cfg clusterName arns t); auto;
    intros; rewrite ?Hu, ?Hw, ?Hd; constructor.
Qed.

Lemma Reaped_silent {B : Type} (f : Event -> list B)
    (cfg : aws_Config) (clusterName : string) (arns : list string)
    (t : Trace) :
  (forall i r, f (event (StopTask cfg i) r) = []) ->
  Reaped cfg clusterName arns t ->
  flat_map f t = [].
Proof.
  intros Hs H. apply Forall_False_nil.
  apply (Reaped_Forall f _ cfg clusterName arns t); auto;
    intros; rewrite Hs; constructor.
Qed.

(** Reduce a reading of a trace made of known events and of the traces of
    the drainer and the reaper, none of which shows anything to it. *)
Ltac read_shape obs :=
  unfold obs;
  repeat (rewrite ?flat_map_app; cbn [flat_map app]);
  repeat match goal with
         | H : Drained _ _ _ ?td |- context [flat_map ?f ?td] =>
             rewrite (Drained_silent f _ _ _ td) by (reflexivity || exact H)
         | H : Reaped _ _ _ ?tr |- context [flat_map ?f ?tr] =>
             rewrite (Reaped_silent f _ _ _ tr) by (reflexivity || exact H)
         end;
  cbn.

(** A property of the outcome and of the non-log events that holds of every
    shape holds of every run. *)
Lemma EveryRun_shape (Q : Plan.t -> Outcome unit -> Trace -> Prop) :
  (forall plan o a, MainShape plan o a -> Q plan o a) ->
  EveryRun (fun plan o t => Q plan o (apiEvents t)).
Proof.
  intros H. split; intros; apply H.
  - apply AppFile_main_shape.
  - apply AppPath_main_shape.
Qed.

(* ================================================================== *)
(** ** Properties of whole runs *)
(* ================================================================== *)



(** Split on how the command ended the run. *)
Ltac destroy_cases :=
  repeat match goal with
         | H : DestroyEnd ?s _ |- _ => destruct s; cbn in H; subst
         end.





(** The command is run at most once; when it is run, it is the command
    composed from the flags and it is the last call of the run that is not a
    log line.  This holds in both revisions. *)
Theorem main_runs_the_command_last :
  EveryRun (fun plan _ t =>
    commandsRun t = [] \/
    exists t' status,
      apiEvents t = (t' ++ [event (CmdRun (Plan.command plan)) status])%list /\
      commandsRun t' = [] /\
      commandsRun t = [Plan.command plan]).
Proof.
  enough (forall (plan : Plan.t) (o : Outcome unit) a, MainShape plan o a ->
            commandsRun a = [] \/
            exists t' status,
              a = (t' ++ [event (CmdRun (Plan.command plan)) status])%list /\
              commandsRun t' = [] /\
              commandsRun a = [Plan.command plan]) as H.
  { apply (EveryRun_shape
             (fun plan _ a =>
                commandsRun a = [] \/
                exists t' status,
                  a = (t' ++ [event (CmdRun (Plan.command plan)) status])%list
                  /\ commandsRun t' = []
                  /\ commandsRun a = [Plan.command plan])) in H.
    destruct H as [H1 H2].
    split; intros; rewrite <- commandsRun_apiEvents; [apply H1 | apply H2]. }
  intros plan o a H.
  destruct H; try (left; now read_shape commandsRun); right.
  - eexists [_; _], status. split; [reflexivity|]. split; reflexivity.
  - exists ([event (LoadDefaultConfig (Plan.loadOptions plan)) (Ok cfg);
             event (ListStackResources cfg
                      (listResourcesOf (Plan.stack plan))) (Ok res);
             event (ListServices cfg (listServicesOf (inspectedName res)))
                   (Ok services)]
            ++ td
            ++ [event (ListTasks cfg (listRunningTasksOf (inspectedName res)))
                      (Ok tasks)]
            ++ tr)%list, status.
    split; [now rewrite <- !app_assoc|].
    split; now read_shape commandsRun.
Qed.

(** The command is run exactly when the flags are accepted, the
    configuration load and every list call succeed and the inspector does not
    panic: the failures of updates, waits, deletions and stops never keep the
    command from running.  This holds in both revisions. *)
Theorem main_runs_the_command_unless_fatal :
  EveryRun (fun plan o t =>
    commandsRun t = [Plan.command plan] <->
    Plan.accepted plan = true /\ listFailures t = []
    /\ exitStatus o <> 2%Z).
Proof.
  enough (forall (plan : Plan.t) (o : Outcome unit) a, MainShape plan o a ->
            commandsRun a = [Plan.command plan] <->
            Plan.accepted plan = true /\ listFailures a = []
            /\ exitStatus o <> 2%Z) as H.
  { apply (EveryRun_shape
             (fun plan o a =>
                commandsRun a = [Plan.command plan] <->
                Plan.accepted plan = true /\ listFailures a = []
                /\ exitStatus o <> 2%Z)) in H.
    destruct H as [H1 H2].
    split; intros;
      rewrite <- commandsRun_apiEvents, <- listFailures_apiEvents;
      [apply H1 | apply H2]. }
  intros plan o a H.
  destruct H; destroy_cases;
    read_shape commandsRun; read_shape listFailures;
    (split; [intros Hc; try discriminate Hc; repeat split; auto; discriminate
            | intros (Ha & Hl & Hs); try reflexivity;
              try discriminate Hl; try congruence ]).
Qed.

Lemma main_runs_the_command_unless_fatal_witness :
  commandsRun
    (snd (run (busyEnv clusterStack)
              (AppFile.main joinWithSlash
                 {| AppFile.stackName := "my-stack"; AppFile.profile := "";
                    AppFile.region := "us-east-1";
                    AppFile.cdkAppDir := "/app";
                    AppFile.cdkAppFile := "bin/app.ts" |}) []))
  = [commandAppFile joinWithSlash "" "/app" "bin/app.ts"].
Proof.
  apply (proj1 main_runs_the_command_unless_fatal
           (busyEnv clusterStack) [] joinWithSlash
           {| AppFile.stackName := "my-stack"; AppFile.profile := "";
              AppFile.region := "us-east-1"; AppFile.cdkAppDir := "/app";
              AppFile.cdkAppFile := "bin/app.ts" |}).
  split; [reflexivity|]. split; [reflexivity | discriminate].
Defined.

(** A failed configuration load or list call ends the run: at most one of
    them fails in a run, and then the exit status is 1 and the command is not
    run.  This holds in both revisions. *)
Theorem main_aborts_on_failed_listing :
  EveryRun (fun _ o t =>
    listFailures t = [] \/
    (exists e, listFailures t = [e]) /\ o = Exited 1 /\ commandsRun t = []).
Proof.
  enough (forall (plan : Plan.t) (o : Outcome unit) a, MainShape plan o a ->
            listFailures a = [] \/
            (exists e, listFailures a = [e]) /\ o = Exited 1
            /\ commandsRun a = []) as H.
  { apply (EveryRun_shape
             (fun _ o a =>
                listFailures a = [] \/
                (exists e, listFailures a = [e]) /\ o = Exited 1
                /\ commandsRun a = [])) in H.
    destruct H as [H1 H2].
    split; intros;
      rewrite <- commandsRun_apiEvents, <- listFailures_apiEvents;
      [apply H1 | apply H2]. }
  intros plan o a H.
  destruct H; read_shape commandsRun; read_shape listFailures;
    try (left; reflexivity); right; eauto.
Qed.

(** Split a reading of the whole trace into the readings of its parts. *)
Ltac forall_shape obs :=
  unfold obs;
  repeat (rewrite ?flat_map_app; cbn [flat_map app]);
  cbn [usedConfig ecsCluster stage projT1 event app];
  repeat match goal with
         | |- Forall _ [] => constructor
         | |- Forall _ (_ :: _) => constructor
         | |- Forall _ (_ ++ _) => apply Forall_app; split
         | H : Drained _ _ _ ?td |- Forall _ (flat_map ?f ?td) =>
             eapply Drained_Forall; [| | | exact H]; intros; cbn
         | H : Reaped _ _ _ ?tr |- Forall _ (flat_map ?f ?tr) =>
             eapply Reaped_Forall; [| exact H]; intros; cbn
         end;
  try reflexivity.

(** Every AWS request of a run is made with the configuration that the one
    configuration load of the run has answered.  This holds in both
    revisions. *)
Theorem main_threads_the_loaded_configuration :
  EveryRun (fun _ _ t =>
    Forall (fun cfg => loadedConfigs t = [cfg]) (usedConfigs t)).
Proof.
  enough (forall (plan : Plan.t) (o : Outcome unit) a, MainShape plan o a ->
            Forall (fun cfg => loadedConfigs a = [cfg]) (usedConfigs a)) as H.
  { apply (EveryRun_shape
             (fun _ _ a =>
                Forall (fun cfg => loadedConfigs a = [cfg]) (usedConfigs a)))
      in H.
    destruct H as [H1 H2].
    split; intros;
      rewrite <- usedConfigs_apiEvents;
      rewrite <- loadedConfigs_apiEvents;
      [apply H1 | apply H2]. }
  intros plan o a H.
  destruct H; read_shape loadedConfigs; forall_shape usedConfigs.
Qed.

(** Every ECS request of a run names one cluster: the name the inspector
    took from the stack resources listed, which is not empty.  This holds in
    both revisions. *)
Theorem main_targets_the_inspected_cluster :
  EveryRun (fun _ _ t =>
    Forall (fun cluster =>
              exists res,
                listedResources t = [res] /\
                inspectedName res <> "" /\
                cluster = Some (inspectedName res))
           (ecsClusters t)).
Proof.
  enough (forall (plan : Plan.t) (o : Outcome unit) a, MainShape plan o a ->
            Forall (fun cluster =>
                      exists res,
                        listedResources a = [res] /\
                        inspectedName res <> "" /\
                        cluster = Some (inspectedName res))
                   (ecsClusters a)) as H.
  { apply (EveryRun_shape
             (fun _ _ a =>
                Forall (fun cluster =>
                          exists res,
                            listedResources a = [res] /\
                            inspectedName res <> "" /\
                            cluster = Some (inspectedName res))
                       (ecsClusters a))) in H.
    destruct H as [H1 H2].
    split; intros;
      rewrite <- ecsClusters_apiEvents;
      rewrite <- listedResources_apiEvents;
      [apply H1 | apply H2]. }
  intros plan o a H.
  destruct H; read_shape listedResources; forall_shape ecsClusters; eauto.
Qed.

Lemma sorted_block (n : nat) (l rest : list nat) :
  Forall (fun x => x = n) l ->
  StronglySorted le rest ->
  Forall (le n) rest ->
  StronglySorted le (l ++ rest) /\ Forall (le n) (l ++ rest).
Proof.
  intros Hl Hs Hr. induction Hl as [|x l -> _ [IHs IHf]]; cbn.
  - now split.
  - split; constructor; auto.
Qed.

(** The calls of a run come in the order of the stages: the configuration
    load, the stack listing, the service calls, the task calls, the command;
    no call of an earlier stage follows a call of a later one.  This holds in
    both revisions. *)
Theorem main_runs_the_stages_in_order :
  EveryRun (fun _ _ t => StronglySorted le (stages t)).
Proof.
  enough (forall (plan : Plan.t) (o : Outcome unit) a, MainShape plan o a ->
            StronglySorted le (stages a)) as H.
  { apply (EveryRun_shape (fun _ _ a => StronglySorted le (stages a))) in H.
    destruct H as [H1 H2].
    split; intros; rewrite <- stages_apiEvents; [apply H1 | apply H2]. }
  intros plan o a H.
  assert (forall cfg cl arns td, Drained cfg cl arns td ->
            Forall (fun x => x = 2) (stages td)) as Hd.
  { intros. forall_shape stages. }
  assert (forall cfg cl arns tr, Reaped cfg cl arns tr ->
            Forall (fun x => x = 3) (stages tr)) as Hr.
  { intros. forall_shape stages. }
  assert (forall t t', stages (t ++ t')%list = (stages t ++ stages t')%list)
    as Happ by (intros; apply flat_map_app).
  destruct H;
    repeat (rewrite ?Happ; cbn [app]);
    cbn [stages flat_map stage projT1 event app];
    repeat match goal with
           | |- StronglySorted le [] => constructor
           | |- StronglySorted le (_ :: _) => constructor
           | |- Forall _ [] => constructor
           | |- Forall _ (_ :: _) => constructor
           | |- (_ <= _)%nat => lia
           | H : Drained _ _ _ ?td |- StronglySorted le (stages ?td ++ _) =>
               apply (sorted_block 2); [eapply Hd; exact H | |]
           | H : Drained _ _ _ ?td |- Forall _ (stages ?td ++ _) =>
               apply Forall_app; split;
               [eapply Forall_impl; [|eapply Hd; exact H];
                cbn; intros; lia |]
           | H : Reaped _ _ _ ?tr |- StronglySorted le (stages ?tr ++ _) =>
               apply (sorted_block 3); [eapply Hr; exact H | |]
           | H : Reaped _ _ _ ?tr |- Forall _ (stages ?tr ++ _) =>
               apply Forall_app; split;
               [eapply Forall_impl; [|eapply Hr; exact H];
                cbn; intros; lia |]
           end.
Qed.

(* ================================================================== *)
(** ** More on the single functions *)
(* ================================================================== *)

Lemma string_app_assoc (a b c : string) : (a ++ b) ++ c = a ++ (b ++ c).
Proof. induction a as [|x a IH]; cbn; [reflexivity | now rewrite IH]. Qed.

(** A short name is its own short name: extracting twice is extracting
    once. *)
Theorem arnToName_idempotent (arn name : string) :
  arnToName arn = Some name -> arnToName name = Some name.
Proof.
  intros H.
  destruct (final_separator "/" arn) as [Hfree | (pre & suf & -> & Hfree)].
  - rewrite (arnToName_no_sep _ Hfree) in H. injection H as <-.
    now apply arnToName_no_sep.
  - rewrite (arnToName_app _ _ Hfree) in H. injection H as <-.
    now apply arnToName_no_sep.
Qed.

Lemma arnToName_idempotent_witness :
  arnToName "my-service" = Some "my-service".
Proof.
  apply (arnToName_idempotent
           "arn:aws:ecs:region:acct:service/cluster-x/my-service").
  reflexivity.
Defined.

(** The short name depends only on what follows the last '/': putting any
    path in front of an ARN does not change it. *)
Theorem arnToName_ignores_the_path (pre arn : string) :
  arnToName (pre ++ "/" ++ arn) = arnToName arn.
Proof.
  destruct (final_separator "/" arn) as [Hfree | (p & suf & -> & Hfree)].
  - rewrite (arnToName_no_sep _ Hfree). now apply arnToName_app.
  - rewrite (arnToName_app p suf Hfree).
    change (pre ++ "/" ++ p ++ String "/" suf)
      with (pre ++ (String "/" p) ++ String "/" suf).
    rewrite <- string_app_assoc. now apply arnToName_app.
Qed.

(** [loadAWSConfig] makes the one call that loads the configuration and
    returns its answer.  A shared-config profile is among the options exactly
    when the profile flag is not empty, and then it is that profile; the
    revision with [--cdk-app-dir] always passes its region, the revision with
    [--cdk-app-root] never passes one. *)
Theorem loadAWSConfig_options :
  (forall (env : Env) (past : Trace) (profile region : string),
      let load := LoadDefaultConfig (optionsAppFile profile region) in
      run env (AppFile.loadAWSConfig profile region) past
      = (Returned (env past load), [event load (env past load)])) /\
  (forall (env : Env) (past : Trace) (profile : string),
      let load := LoadDefaultConfig (optionsAppPath profile) in
      run env (AppPath.loadAWSConfig profile) past
      = (Returned (env past load), [event load (env past load)])) /\
  (forall profile region p,
      In (WithSharedConfigProfile p) (optionsAppFile profile region) <->
      p = profile /\ profile <> "") /\
  (forall profile p,
      In (WithSharedConfigProfile p) (optionsAppPath profile) <->
      p = profile /\ profile <> "") /\
  (forall profile region r,
      In (WithRegion r) (optionsAppFile profile region) <-> r = region) /\
  (forall profile r, ~ In (WithRegion r) (optionsAppPath profile)).
Proof.
  split; [|split; [|split; [|split; [|split]]]].
  - intros env past profile region. cbv zeta.
    unfold AppFile.loadAWSConfig, optionsAppFile.
    now destruct (profile =? "").
  - intros env past profile. cbv zeta.
    unfold AppPath.loadAWSConfig, optionsAppPath.
    now destruct (profile =? "").
  - intros profile region p. unfold optionsAppFile.
    destruct (String.eqb_spec profile ""); cbn.
    + split; [intros [H | []]; discriminate H | intros [_ H]; contradiction].
    + split.
      * intros [H | [H | []]]; [discriminate H|]. injection H as <-. auto.
      * intros [-> _]. auto.
  - intros profile p. unfold optionsAppPath.
    destruct (String.eqb_spec profile ""); cbn.
    + split; [intros [] | intros [_ H]; contradiction].
    + split.
      * intros [H | []]. injection H as <-. auto.
      * intros [-> _]. auto.
  - intros profile region r. unfold optionsAppFile.
    destruct (profile =? ""); cbn.
    + split; [intros [H | []]; now injection H as <- | intros ->; auto].
    + split; [|intros ->; auto].
      intros [H | [H | []]]; [now injection H as <- | discriminate H].
  - intros profile r. unfold optionsAppPath.
    destruct (profile =? ""); cbn; [tauto|].
    intros [H | []]. discriminate H.
Qed.

Lemma loadAWSConfig_options_witness :
  In (WithSharedConfigProfile "prod") (optionsAppPath "prod").
Proof.
  apply (proj1 (proj2 (proj2 (proj2 loadAWSConfig_options))) "prod" "prod").
  split; [reflexivity | discriminate].
Defined.

(** The first element of a list that satisfies a test: everything before it
    fails the test. *)
Lemma find_first {A : Type} (p : A -> bool) (l : list A) (x : A) :
  find p l = Some x <->
  exists before after,
    l = (before ++ x :: after)%list /\
    Forall (fun y => p y = false) before /\ p x = true.
Proof.
  split.
  - induction l as [|y l IH]; cbn; [discriminate|].
    destruct (p y) eqn:E.
    + intros H. injection H as <-. now exists [], l.
    + intros H. destruct (IH H) as (before & after & -> & Hb & Hx).
      exists (y :: before), after. repeat split; auto.
  - intros (before & after & -> & Hb & Hx).
    induction Hb as [|y before Hy _ IH]; cbn.
    + now rewrite Hx.
    + now rewrite Hy.
Qed.

Lemma find_none_Forall {A : Type} (p : A -> bool) (l : list A) :
  Forall (fun y => p y = false) l -> find p l = None.
Proof.
  induction 1 as [|y l Hy _ IH]; cbn; [reflexivity | now rewrite Hy].
Qed.

(** In the revision with [--cdk-app-dir] the inspector returns for every
    answer of the listing: the error of a failed listing; for a list of
    summaries, the identifier of the first summary of type
    [AWS::ECS::Cluster], whatever comes before and after it, read as the
    empty name when that summary has no identifier; the empty name and no
    error when no summary has that type.  A summary is a cluster exactly when
    its type is present and is that string. *)
Theorem AppFile_inspector_takes_the_first_cluster
    (env : Env) (past : Trace) (cfg : aws_Config) (stackName : string) :
  let list := ListStackResources cfg (listResourcesOf stackName) in
  let result :=
    fst (run env (AppFile.getEcsClusterNameFromStack cfg stackName) past) in
  (forall e, env past list = Err e -> result = Returned ("", Some e)) /\
  (forall res before r after,
      env past list = Ok res ->
      ListStackResourcesOutput.StackResourceSummaries res
      = (before ++ r :: after)%list ->
      Forall (fun s => isEcsCluster s = false) before ->
      isEcsCluster r = true ->
      result
      = Returned (aws_ToString (StackResourceSummary.PhysicalResourceId r),
                  None)) /\
  (forall res,
      env past list = Ok res ->
      Forall (fun s => isEcsCluster s = false)
             (ListStackResourcesOutput.StackResourceSummaries res) ->
      result = Returned ("", None)) /\
  (forall s, isEcsCluster s = true <->
             StackResourceSummary.ResourceType s = Some "AWS::ECS::Cluster").
Proof.
  cbv zeta. rewrite AppFile_getEcsClusterNameFromStack_run. cbn [fst].
  split; [|split; [|split]].
  - intros e ->. reflexivity.
  - intros res before r after -> Hsum Hb Hr.
    assert (find isEcsCluster
                 (ListStackResourcesOutput.StackResourceSummaries res)
            = Some r) as -> by (apply find_first; eauto).
    reflexivity.
  - intros res -> Hnone. now rewrite (find_none_Forall _ _ Hnone).
  - intros s. unfold isEcsCluster.
    destruct (StackResourceSummary.ResourceType s) as [ty|].
    + rewrite String.eqb_eq. split; [now intros -> | now intros [= ->]].
    + split; discriminate.
Qed.

Lemma AppFile_inspector_takes_the_first_cluster_witness :
  fst (run (busyEnv clusterStack)
           (AppFile.getEcsClusterNameFromStack someConfig "my-stack") [])
  = Returned ("cluster-x", None).
Proof.
  apply (proj1 (proj2 (AppFile_inspector_takes_the_first_cluster
                         (busyEnv clusterStack) [] someConfig "my-stack"))
           {| ListStackResourcesOutput.StackResourceSummaries := clusterStack;
              ListStackResourcesOutput.NextToken := Some "page-2" |}
           [ {| StackResourceSummary.ResourceType := Some "AWS::S3::Bucket";
                StackResourceSummary.PhysicalResourceId :=
                  Some "assets-bucket" |} ]
           {| StackResourceSummary.ResourceType := Some "AWS::ECS::Cluster";
              StackResourceSummary.PhysicalResourceId := Some "cluster-x" |}
           []).
  - reflexivity.
  - reflexivity.
  - repeat constructor.
  - reflexivity.
Defined.

(** In the revision with [--cdk-app-root] the inspector panics exactly when
    the listing succeeds and the first summary of type [AWS::ECS::Cluster]
    has no identifier; in every other case it does what the inspector of the
    other revision does: the same result after the same call. *)
Theorem AppPath_inspector_agrees_unless_it_panics
    (env : Env) (past : Trace) (cfg : aws_Config) (stackName : string) :
  let list := ListStackResources cfg (listResourcesOf stackName) in
  let result := run env (AppPath.getEcsClusterNameFromStack cfg stackName) past
  in
  (fst result = Panicked nilDereference <->
   exists res before r after,
     env past list = Ok res /\
     ListStackResourcesOutput.StackResourceSummaries res
     = (before ++ r :: after)%list /\
     Forall (fun s => isEcsCluster s = false) before /\
     isEcsCluster r = true /\
     StackResourceSummary.PhysicalResourceId r = None) /\
  (fst result = Panicked nilDereference \/
   result = run env (AppFile.getEcsClusterNameFromStack cfg stackName) past).
Proof.
  cbv zeta.
  rewrite AppPath_getEcsClusterNameFromStack_run,
    AppFile_getEcsClusterNameFromStack_run. cbn [fst].
  destruct (env past (ListStackResources cfg (listResourcesOf stackName)))
    as [res | e].
  2:{ split; [|now right].
      split; [discriminate | intros (? & ? & ? & ? & H & _); discriminate H]. }
  destruct (find isEcsCluster
                 (ListStackResourcesOutput.StackResourceSummaries res))
    as [r|] eqn:Hfind.
  - destruct (StackResourceSummary.PhysicalResourceId r) as [id|] eqn:Hid.
    + split; [|now right]. split; [discriminate|].
      intros (res' & before & r' & after & Hres & Hsum & Hb & Hr & Hnil).
      injection Hres as <-.
      assert (find isEcsCluster
                   (ListStackResourcesOutput.StackResourceSummaries res)
              = Some r') as H by (apply find_first; eauto).
      rewrite Hfind in H. injection H as <-. congruence.
    + split; [|now left]. split; [intros _ | reflexivity].
      apply find_first in Hfind as (before & after & Hsum & Hb & Hr).
      exists res, before, r, after. auto.
  - split; [|now right]. split; [discriminate|].
    intros (res' & before & r' & after & Hres & Hsum & Hb & Hr & Hnil).
    injection Hres as <-.
    assert (find isEcsCluster
                 (ListStackResourcesOutput.StackResourceSummaries res)
            = Some r') as H by (apply find_first; eauto).
    rewrite Hfind in H. discriminate H.
Qed.

Lemma AppPath_inspector_agrees_unless_it_panics_witness :
  fst (run (busyEnv clusterWithoutId)
           (AppPath.getEcsClusterNameFromStack someConfig "my-stack") [])
  = Panicked nilDereference.
Proof.
  apply (proj1 (AppPath_inspector_agrees_unless_it_panics
                  (busyEnv clusterWithoutId) [] someConfig "my-stack")).
  exists {| ListStackResourcesOutput.StackResourceSummaries := clusterWithoutId;
            ListStackResourcesOutput.NextToken := Some "page-2" |},
    [],
    {| StackResourceSummary.ResourceType := Some "AWS::ECS::Cluster";
       StackResourceSummary.PhysicalResourceId := None |},
    [].
  repeat split. constructor.
Defined.

(** In the revision with [--cdk-app-root], a run with a stack name and an
    empty [--cdk-app-path] logs the error line and exits with status 1 before
    anything else: no configuration is loaded, no call is made, no command is
    run. *)
Theorem AppPath_main_exits_without_app_path
    (env : Env) (past : Trace) (flags : AppPath.Flags) :
  AppPath.stackName flags <> "" ->
  AppPath.cdkAppPath flags = "" ->
  run env (AppPath.main flags) past
  = (Exited 1,
     [event (LogOutput "Error: --cdk-app-path を指定してください。") tt]).
Proof.
  intros Hstack Hpath. apply String.eqb_neq in Hstack.
  unfold AppPath.main. rewrite Hstack, Hpath. cbn [String.eqb]. now step.
Qed.

Lemma AppPath_main_exits_without_app_path_witness :
  run quietEnv
      (AppPath.main {| AppPath.stackName := "my-stack";
                       AppPath.profile := "prod";
                       AppPath.cdkAppPath := "";
                       AppPath.cdkAppRoot := "/app" |}) []
  = (Exited 1,
     [event (LogOutput "Error: --cdk-app-path を指定してください。") tt]).
Proof.
  apply AppPath_main_exits_without_app_path.
  - discriminate.
  - reflexivity.
Defined.



(* ================================================================== *)
(** ** Failures are reported *)
(* ================================================================== *)

Lemma endsQuietly_app (t t' : Trace) :
  t' <> [] -> endsQuietly t' -> endsQuietly (t ++ t')%list.
Proof.
  unfold endsQuietly. rewrite rev_app_distr.
  destruct (rev t') as [|ev r] eqn:E.
  - intros H. destruct t'; [contradiction|].
    apply (f_equal (@List.length _)) in E.
    rewrite length_rev in E. discriminate E.
  - auto.
Qed.

Lemma reported_app (t t' : Trace) :
  reported t -> endsQuietly t -> reported t' -> reported (t ++ t')%list.
Proof.
  induction t as [|ev t IH]; [auto|].
  intros [Hev Ht] Hq Ht'. cbn [app reported]. split.
  - destruct (failureLine ev) as [|line ?] eqn:E; [exact I|].
    destruct t as [|next t]; [|exact Hev]. contradiction.
  - apply IH; auto.
    destruct t as [|next t]; [exact I|].
    unfold endsQuietly in *. cbn [rev] in *.
    destruct (rev t ++ [next])%list as [|x l] eqn:E.
    + now destruct (rev t).
    + cbn in Hq. exact Hq.
Qed.

Section Reporting.

Variable env : Env.
Variable cfg : aws_Config.
Variable clusterName : string.

(** A loop whose turns report their failures and end quietly does so as a
    whole. *)
Lemma forRange_reported {A : Type} (body : A -> Prog unit) :
  (forall x past, exists t,
      run env (body x) past = (Returned tt, t) /\
      reported t /\ endsQuietly t) ->
  forall xs past, exists t,
    run env (forRange xs body) past = (Returned tt, t) /\
    reported t /\ endsQuietly t.
Proof.
  intros Hbody xs. induction xs as [|x rest IH]; intros past.
  - exists []. repeat split.
  - destruct (Hbody x past) as (t & Ht & Hr & Hq).
    destruct (IH (past ++ t)%list) as (t' & Ht' & Hr' & Hq').
    exists (t ++ t')%list.
    rewrite (run_forRange_cons _ _ _ _ _ _ Ht), Ht'.
    split; [reflexivity|]. split; [now apply reported_app|].
    destruct t' as [|ev t']; [now rewrite app_nil_r|].
    now apply endsQuietly_app.
Qed.

Lemma deleteEcsServices_body_reported (svcArn : string) (past : Trace) :
  exists t,
    run env (deleteEcsServices_body cfg clusterName svcArn) past
    = (Returned tt, t) /\
    reported t /\ endsQuietly t.
Proof.
  destruct (arnToName_total svcArn) as [svcName Hname].
  unfold deleteEcsServices_body. rewrite Hname.
  step. answer UpdateService; step.
  - eexists. split; [reflexivity|]. cbn. auto.
  - answer ServicesStableWait; step; answer DeleteService; step;
      (eexists; split; [reflexivity|]); cbn; auto 10.
Qed.

Lemma stopRemainingTasks_body_reported (taskArn : string) (past : Trace) :
  exists t,
    run env (stopRemainingTasks_body cfg clusterName taskArn) past
    = (Returned tt, t) /\
    reported t /\ endsQuietly t.
Proof.
  destruct (arnToName_total taskArn) as [taskName Hname].
  unfold stopRemainingTasks_body. rewrite Hname.
  step. answer StopTask; step;
    (eexists; split; [reflexivity|]);
    cbn [reported failureLine endsQuietly rev app event projT1
         StopTaskInput.Task aws_ToString];
    rewrite ?Hname; cbn; auto.
Qed.

End Reporting.

(** Proves that a revision of [stopRemainingTasks] reports its failures,
    once it is unfolded. *)
Ltac reaper_reported :=
  step;
  match goal with
  | |- context [?e ?h (ListTasks ?c ?i)] =>
      let arns := fresh "arns" in
      destruct (e h (ListTasks c i)) as [[arns ?] | ?];
      [ cbn [ListTasksOutput.TaskArns];
        destruct arns as [|? ?];
        [ cbn [len List.length Z.of_nat Z.eqb]; step; cbn; auto
        | match goal with
          | |- context [(len ?l =? 0)%Z] =>
              replace (len l =? 0)%Z with false
                by (unfold len; cbn [List.length]; symmetry;
                    apply Z.eqb_neq; lia)
          end;
          let t := fresh "t" in
          let Ht := fresh "Ht" in
          let Hr := fresh "Hr" in
          match goal with
          | |- context [run ?env
                          (bind (forRange ?l (stopRemainingTasks_body ?cfg ?cl))
                                ?f) ?h] =>
              destruct (forRange_reported env
                          (stopRemainingTasks_body cfg cl)
                          (stopRemainingTasks_body_reported env cfg cl) l h)
                as (t & Ht & Hr & _);
              rewrite run_bind, Ht; cbn [run snd];
              rewrite app_nil_r; cbn [reported failureLine];
              split; [exact I | exact Hr]
          end ]
      | cbn; auto ]
  end.

(** No failure of an update, a wait, a deletion or a stop is swallowed: in
    every run of the drainer and of the reaper, each such request that is
    answered with an error is followed at once by the log line that names the
    service or task by its short name and gives the error. *)
Theorem failures_are_reported
    (env : Env) (past : Trace) (cfg : aws_Config) (clusterName : string) :
  reported (snd (run env (deleteEcsServices cfg clusterName) past)) /\
  reported (snd (run env (AppFile.stopRemainingTasks cfg clusterName) past)) /\
  reported (snd (run env (AppPath.stopRemainingTasks cfg clusterName) past)).
Proof.
  split; [|split].
  - unfold deleteEcsServices. step.
    match goal with
    | |- context [?e ?h (ListServices ?c ?i)] =>
        destruct (e h (ListServices c i)) as [[arns tok] | err]
    end; [|cbn; auto].
    cbn [ListServicesOutput.ServiceArns].
    destruct arns as [|svcArn rest].
    + cbn [len List.length Z.of_nat Z.eqb]. step. cbn. auto.
    + replace (len (svcArn :: rest) =? 0)%Z with false
        by (unfold len; cbn [List.length]; symmetry; apply Z.eqb_neq; lia).
      match goal with
      | |- context [run env (bind (forRange ?l ?b) ?f) ?h] =>
          destruct (forRange_reported env b
                      (deleteEcsServices_body_reported env cfg clusterName)
                      l h) as (t & Ht & Hr & _)
      end.
      rewrite run_bind, Ht. cbn [run snd]. rewrite app_nil_r.
      cbn [reported failureLine]. split; [exact I | exact Hr].
  - unfold AppFile.stopRemainingTasks. reaper_reported.
  - unfold AppPath.stopRemainingTasks. reaper_reported.
Qed.

Example reported_needs_the_line :
  ~ reported [event (UpdateService someConfig (updateToZero "cluster-x" "A"))
                    (Some "AccessDeniedException")] /\
  ~ reported [event (UpdateService someConfig (updateToZero "cluster-x" "A"))
                    (Some "AccessDeniedException");
              event (LogOutput "[Service: B] Setting desired count to 0...")
                    tt] /\
  reported [event (UpdateService someConfig (updateToZero "cluster-x" "A"))
                  (Some "AccessDeniedException");
            event (LogOutput
                     "Failed to update service(A) desiredCount=0: AccessDeniedException")
                  tt].
Proof.
  split; [|split]; cbn.
  - intros [[] _].
  - intros [H _]. discriminate H.
  - auto.
Qed.
